(** * push-hz-prices: rate derivation and Coroot synchronisation

    A shallow embedding of [scripts/push-hz-prices.py].  The script is a
    straight-line pipeline of six numbered sections (fetch, aggregate,
    derive, authenticate, discover, update) preceded by a configuration
    check.  Python [float] is IEEE-754 binary64 and is modelled by Rocq's
    primitive floats; Python [int] is modelled by [Z]; exceptions and
    [sys.exit] are modelled by an error monad that also records every
    network request in a trace. *)

From Stdlib Require Import ZArith Floats List Bool QArith Field Qfield.
From Stdlib Require Uint63.
From stdpp Require Import base option list gmap strings.

Set Warnings "-inexact-float,-register-all".
Set Default Proof Using "Type".

Local Open Scope string_scope.
Local Open Scope Z_scope.
Local Open Scope list_scope.

(** ** Python values *)

(** Decoded JSON documents, as [json.loads] returns them.  A [dict] is kept
    as its list of items. *)
Inductive json : Type :=
| JNull
| JBool (b : bool)
| JInt (z : Z)
| JFloat (f : float)
| JStr (s : string)
| JArr (items : list json)
| JObj (items : list (string * json)).

(** Python truth value of a decoded JSON document. *)
Definition truthy (j : json) : bool :=
  match j with
  | JNull => false
  | JBool b => b
  | JInt z => negb (Z.eqb z 0)
  | JFloat f => negb (PrimFloat.eqb f 0%float)
  | JStr s => negb (String.eqb s "")
  | JArr items => match items with [] => false | _ => true end
  | JObj items => match items with [] => false | _ => true end
  end.

(** [a or b] *)
Definition py_or (a b : json) : json := if truthy a then a else b.

(** [d.get(key, dflt)] on a dict given by its items. *)
Fixpoint dict_get (d : list (string * json)) (key : string) (dflt : json) : json :=
  match d with
  | [] => dflt
  | (k, v) :: rest => if String.eqb k key then v else dict_get rest key dflt
  end.

Definition has_key (d : list (string * json)) (key : string) : bool :=
  existsb (fun kv => String.eqb (fst kv) key) d.

Definition is_dict (j : json) : bool :=
  match j with JObj _ => true | _ => false end.

(** ** Requests, exceptions and the run monad *)

(** The Coroot paths the script builds.  The project placed in the last
    path is whatever value discovery bound to [COROOT_PROJECT]. *)
Inductive endpoint : Type :=
| ApiLogin
| ApiProjects
| ApiOverview (candidate : string)
| ApiCustomCloudPricing (project : json).

Inductive exn : Type :=
| SystemExit (msg : string)
| RuntimeError (code : Z) (method : string) (path : endpoint) (body_text : string)
| AssertionError
| ZeroDivisionError
| OverflowError
| ValueError (msg : string)
| AttributeError
| JSONDecodeError
| HTTPError (code : Z)
| URLError.

(** [except Exception] catches everything but [SystemExit]. *)
Definition is_Exception (e : exn) : bool :=
  match e with SystemExit _ => false | _ => true end.

(** [except RuntimeError] *)
Definition is_RuntimeError (e : exn) : bool :=
  match e with RuntimeError _ _ _ _ => true | _ => false end.

Inductive event : Type :=
| HetznerGet (path : string)
| CorootCall (method : string) (path : endpoint) (body : option json).

Inductive res (A : Type) : Type :=
| Ok (a : A)
| Raise (e : exn).
Arguments Ok {A} a.
Arguments Raise {A} e.

(** A computation yields the requests it issued, in order, and either a
    value or the exception that stopped it. *)
Definition M (A : Type) : Type := (list event * res A)%type.

Definition ret {A} (a : A) : M A := ([], Ok a).
Definition raise {A} (e : exn) : M A := ([], Raise e).
Definition lift {A} (r : res A) : M A := ([], r).

Definition bind {A B} (m : M A) (k : A -> M B) : M B :=
  match m with
  | (t, Ok a) => let '(t', r) := k a in (t ++ t', r)
  | (t, Raise e) => (t, Raise e)
  end.

(** [try: m  except <handles> as e: h e] *)
Definition try_except {A} (m : M A) (handles : exn -> bool) (h : exn -> M A) : M A :=
  match m with
  | (t, Raise e) =>
      if handles e then let '(t', r) := h e in (t ++ t', r) else (t, Raise e)
  | _ => m
  end.

Declare Scope run_scope.
Delimit Scope run_scope with run.
Notation "x <- m ;; k" := (bind m (fun x => k))
  (at level 100, m at next level, right associativity) : run_scope.
Notation "m ;;; k" := (bind m (fun _ => k))
  (at level 100, right associativity) : run_scope.
Local Open Scope run_scope.

(** ** Python float arithmetic *)

Module PyFloat.

(** [float(n)] for an [int]: correctly rounded, [OverflowError] when the
    rounded value does not fit a binary64. *)
Definition of_int (n : Z) : res float :=
  match binary_normalize prec emax n 0 false with
  | S754_infinity _ => Raise OverflowError
  | sf => Ok (SF2Prim sf)
  end.

Definition is_zero (x : float) : bool := PrimFloat.eqb x 0%float.

(** [x / y] on floats raises instead of producing an infinity or NaN
    from a zero divisor. *)
Definition truediv (x y : float) : res float :=
  if is_zero y then Raise ZeroDivisionError else Ok (x / y)%float.

End PyFloat.

(** Line 43. *)
Definition CPU_MEMORY_RATIO : float := (0.03465 / 0.003938)%float.

(** ** Data model *)

(** One [{"hourly": .., "monthly": ..}] entry of [price_lookup]. *)
Record prices_t : Type := Prices { hourly : float; monthly : float }.

(** One element of [pricing["server_types"]], with the net prices already
    passed through [float(..)]: its name and its per-location prices. *)
Record server_type_t : Type := ServerType {
  st_name : string;
  st_prices : list (string * prices_t)
}.

(** One element of the provider's [servers] list, reduced to the fields the
    loop reads: [server["name"]], [server["server_type"]["name"]],
    [..["cores"]], [..["memory"]], [server["datacenter"]["location"]["name"]]. *)
Record server_t : Type := Server {
  name : string;
  stype : string;
  vcpus : Z;
  ram_gb : float;
  location : string
}.

(** The three accumulators of section 2 of the script. *)
Record totals_t : Type := Totals {
  total_hourly : float;
  total_vcpus : Z;
  total_ram_gb : float
}.

(** ** Section 1 of the script: the price catalog (lines 85-94) *)

(** A dict comprehension keeps the last value of a repeated key. *)
Definition dict_of {V} (items : list (string * V)) : gmap string V :=
  foldl (fun d kv => <[ kv.1 := kv.2 ]> d) ∅ items.

Definition price_lookup_of (server_types : list server_type_t)
  : gmap string (gmap string prices_t) :=
  dict_of (map (fun st => (st_name st, dict_of (st_prices st))) server_types).

(** ** Section 2 of the script: aggregation (lines 104-129) *)

(** Line 114: [price_lookup.get(stype, {}).get(location)]. *)
Definition lookup_prices (price_lookup : gmap string (gmap string prices_t))
    (server : server_t) : option prices_t :=
  default ∅ (price_lookup !! stype server) !! location server.

(** Lines 120-122. *)
Definition add_server (acc : totals_t) (prices : prices_t) (server : server_t) : totals_t :=
  {| total_hourly := (total_hourly acc + hourly prices)%float;
     total_vcpus := total_vcpus acc + vcpus server;
     total_ram_gb := (total_ram_gb acc + ram_gb server)%float |}.

(** The loop body, lines 110-122: a server without a price entry leaves the
    accumulators untouched ([continue]). *)
Definition loop_body (price_lookup : gmap string (gmap string prices_t))
    (acc : totals_t) (server : server_t) : totals_t :=
  match lookup_prices price_lookup server with
  | None => acc
  | Some prices => add_server acc prices server
  end.

(** Lines 104-106. *)
Definition totals0 : totals_t :=
  {| total_hourly := 0%float; total_vcpus := 0; total_ram_gb := 0%float |}.

Definition aggregate (price_lookup : gmap string (gmap string prices_t))
    (servers : list server_t) : totals_t :=
  foldl (loop_body price_lookup) totals0 servers.

Definition NoPriceableServers : exn :=
  SystemExit "error: could not resolve pricing for any active server".

(** Lines 104-129, with the guard that ends section 2. *)
Definition aggregate_stage (price_lookup : gmap string (gmap string prices_t))
    (servers : list server_t) : M totals_t :=
  let t := aggregate price_lookup servers in
  if Z.eqb (total_vcpus t) 0 then raise NoPriceableServers else ret t.

(** The servers that have a price entry, each paired with it. *)
Definition priced_subset (price_lookup : gmap string (gmap string prices_t))
    (servers : list server_t) : list (prices_t * server_t) :=
  omap (fun server => (fun p => (p, server)) <$> lookup_prices price_lookup server) servers.

(** The sum of a list of floats, accumulated from 0.0 in list order, and
    the sum of a list of ints. *)
Definition float_sum (xs : list float) : float := foldl PrimFloat.add 0%float xs.
Definition int_sum (xs : list Z) : Z := foldl Z.add 0 xs.

(** The totals as the specification words them: the sum of the hourly
    prices, the sum of the cores and the sum of the memory sizes, each taken
    over the servers that have a price entry. *)
Definition sum_over_priced (price_lookup : gmap string (gmap string prices_t))
    (servers : list server_t) : totals_t :=
  let priced := priced_subset price_lookup servers in
  {| total_hourly := float_sum (map (fun ps => hourly ps.1) priced);
     total_vcpus := int_sum (map (fun ps => vcpus ps.2) priced);
     total_ram_gb := float_sum (map (fun ps => ram_gb ps.2) priced) |}.

(** ** Section 3 of the script: rate derivation (lines 137-145) *)

(** Lines 137-138.  [total_vcpus] is an [int] and is converted where it
    meets a float. *)
Definition derive_rates (t : totals_t) : res (float * float) :=
  match PyFloat.of_int (total_vcpus t) with
  | Raise e => Raise e
  | Ok c =>
      match PyFloat.truediv (total_hourly t) (CPU_MEMORY_RATIO * c + total_ram_gb t)%float with
      | Raise e => Raise e
      | Ok per_memory => Ok ((CPU_MEMORY_RATIO * per_memory)%float, per_memory)
      end
  end.

(** The condition of the [assert] on line 145, for the cores already
    converted to a float. *)
Definition reconstructs (t : totals_t) (c per_cpu per_memory : float) : bool :=
  PrimFloat.ltb
    (abs (per_cpu * c + per_memory * total_ram_gb t - total_hourly t))%float
    1e-9%float.

(** Lines 137-145: the rates leave section 3 only if the assertion holds. *)
Definition derive_stage (t : totals_t) : M (float * float) :=
  rates <- lift (derive_rates t) ;;
  let '(per_cpu, per_memory) := rates in
  c <- lift (PyFloat.of_int (total_vcpus t)) ;;
  if reconstructs t c per_cpu per_memory
  then ret (per_cpu, per_memory)
  else raise AssertionError.

(** The closed form as the specification words it, over floats. *)
Definition closed_form (ratio H C Mem : float) : float * float :=
  let per_memory_gb := (H / (ratio * C + Mem))%float in
  let per_cpu_core := (ratio * per_memory_gb)%float in
  (per_cpu_core, per_memory_gb).

(** ** The two remote services *)

(** What the provider API answers to one [hetzner_get], with the body
    already decoded to the shape the script indexes into. *)
Inductive hz_response (A : Type) : Type :=
| HzBody (a : A)
| HzStatus (code : Z)
| HzUnreachable.
Arguments HzBody {A} a.
Arguments HzStatus {A} code.
Arguments HzUnreachable {A}.

(** What [_opener.open] and the body give for one Coroot request. *)
Inductive response : Type :=
| RespJSON (j : json)                        (* success status, body decodes to [j] *)
| RespBlank                                  (* success status, blank body *)
| RespGarbage                                (* success status, body is not JSON *)
| RespStatus (code : Z) (body_text : string) (* urllib raises [HTTPError] *)
| RespNone.                                  (* no HTTP response at all *)

Record World : Type := {
  hetzner_pricing : hz_response (list server_type_t);
  hetzner_servers : hz_response (list server_t);
  coroot : string -> endpoint -> option json -> response
}.

(** Lines 48-54. *)
Definition hetzner_get {A} (path : string) (answer : hz_response A) : M A :=
  ([HetznerGet path],
   match answer with
   | HzBody a => Ok a
   | HzStatus code => Raise (HTTPError code)
   | HzUnreachable => Raise URLError
   end).

(** Lines 62-77.  A blank body yields [None], here [JNull]; an
    [HTTPError] is re-raised as a [RuntimeError]; nothing else is caught. *)
Definition coroot_request (w : World) (method : string) (path : endpoint)
    (body : option json) : M json :=
  ([CorootCall method path body],
   match coroot w method path body with
   | RespJSON j => Ok j
   | RespBlank => Ok JNull
   | RespGarbage => Raise JSONDecodeError
   | RespStatus code body_text => Raise (RuntimeError code method path body_text)
   | RespNone => Raise URLError
   end).

(** ** Configuration (lines 30-39) *)

Definition REQUIRED : list string := ["HETZNER_TOKEN"; "COROOT_EMAIL"; "COROOT_PASSWORD"].

(** [os.environ.get(var)] is falsy when the variable is unset or empty. *)
Definition env_set (environ : gmap string string) (var : string) : bool :=
  match environ !! var with
  | Some v => negb (String.eqb v "")
  | None => false
  end.

Fixpoint check_required (environ : gmap string string) (vars : list string) : M unit :=
  match vars with
  | [] => ret tt
  | var :: rest =>
      if env_set environ var then check_required environ rest
      else raise (SystemExit ("error: " ++ var ++ " not set")%string)
  end.

Definition env_get (environ : gmap string string) (var dflt : string) : string :=
  default dflt (environ !! var).

(** ** Section 1 of the script: fetch (lines 82-100) *)

Definition EmptyInventory : exn :=
  SystemExit "error: no active servers found in Hetzner account".

Definition fetch (w : World) : M (gmap string (gmap string prices_t) * list server_t) :=
  server_types <- hetzner_get "/v1/pricing" (hetzner_pricing w) ;;
  let price_lookup := price_lookup_of server_types in
  servers <- hetzner_get "/v1/servers" (hetzner_servers w) ;;
  match servers with
  | [] => raise EmptyInventory
  | _ => ret (price_lookup, servers)
  end.

(** ** Section 4 of the script: login (lines 149-151) *)

Definition login_body (email password : string) : json :=
  JObj [("email", JStr email); ("password", JStr password)].

Definition login (w : World) (email password : string) : M unit :=
  coroot_request w "POST" ApiLogin (Some (login_body email password)) ;;;
  ret tt.

(** ** Section 5 of the script: project discovery (lines 155-181) *)

Definition ProjectDiscoveryError : exn :=
  SystemExit
    "error: could not auto-discover project name. Set COROOT_PROJECT env var explicitly.".

(** Line 161: [projects[0].get("name") or projects[0].get("id", "default")];
    [.get] exists on a dict only. *)
Definition first_project (p0 : json) : res json :=
  match p0 with
  | JObj d => Ok (py_or (dict_get d "name" JNull) (dict_get d "id" (JStr "default")))
  | _ => Raise AttributeError
  end.

(** Line 162 evaluates [p.get('name') or p.get('id')] for every entry
    before printing, so an entry that is not a dict raises there. *)
Definition found_projects (projects : list json) : res unit :=
  if forallb is_dict projects then Ok tt else Raise AttributeError.

(** The [try] body, lines 159-165. *)
Definition list_projects (w : World) : M json :=
  r <- coroot_request w "GET" ApiProjects None ;;
  match py_or r (JArr []) with
  | JArr (p0 :: rest) =>
      project <- lift (first_project p0) ;;
      lift (found_projects (p0 :: rest)) ;;;
      ret project
  | _ => raise (ValueError "empty projects list")
  end.

(** The [for .. else] of lines 168-181 over its tuple of candidates: the
    first candidate whose overview comes back as something other than
    [None] is taken; a [RuntimeError] moves on to the next; running out of
    candidates exits. *)
Fixpoint probe (w : World) (candidates : list string) : M json :=
  match candidates with
  | [] => raise ProjectDiscoveryError
  | candidate :: rest =>
      found <- try_except
                 (resp <- coroot_request w "GET" (ApiOverview candidate) None ;;
                  ret (match resp with JNull => false | _ => true end))
                 is_RuntimeError
                 (fun _ => ret false) ;;
      if found : bool then ret (JStr candidate) else probe w rest
  end.

Definition CANDIDATES : list string := ["default"].

(** Lines 155-181.  The argument is the configured [COROOT_PROJECT]; the
    result is the value the name is bound to afterwards. *)
Definition discover (w : World) (COROOT_PROJECT : string) : M json :=
  if String.eqb COROOT_PROJECT "" then
    try_except (list_projects w) is_Exception (fun _ => probe w CANDIDATES)
  else ret (JStr COROOT_PROJECT).

(** ** Section 6 of the script: update (lines 185-187) *)

Definition pricing_body (per_cpu per_memory : float) : json :=
  JObj [("per_cpu_core", JFloat per_cpu); ("per_memory_gb", JFloat per_memory)].

Definition update_pricing (w : World) (project : json) (rates : float * float) : M unit :=
  coroot_request w "POST" (ApiCustomCloudPricing project)
    (Some (pricing_body rates.1 rates.2)) ;;;
  ret tt.

(** ** The whole script *)

(** The sections of the script, in source order. *)
Inductive stage : Type :=
| Config | Fetch | Aggregate | Derive | Authenticate | Discover | Update.

Inductive outcome : Type :=
| Done
| Failed (at_stage : stage) (e : exn).

(** Run one section; an exception leaving it ends the process there. *)
Definition section {A} (s : stage) (m : M A) (k : A -> list event * outcome)
  : list event * outcome :=
  match m with
  | (t, Ok a) => let '(t', o) := k a in (t ++ t', o)
  | (t, Raise e) => (t, Failed s e)
  end.

Definition run (environ : gmap string string) (w : World) : list event * outcome :=
  section Config (check_required environ REQUIRED) (fun _ =>
  let COROOT_EMAIL := env_get environ "COROOT_EMAIL" "" in
  let COROOT_PASSWORD := env_get environ "COROOT_PASSWORD" "" in
  let COROOT_PROJECT := env_get environ "COROOT_PROJECT" "" in
  section Fetch (fetch w) (fun '(price_lookup, servers) =>
  section Aggregate (aggregate_stage price_lookup servers) (fun t =>
  section Derive (derive_stage t) (fun rates =>
  section Authenticate (login w COROOT_EMAIL COROOT_PASSWORD) (fun _ =>
  section Discover (discover w COROOT_PROJECT) (fun project =>
  section Update (update_pricing w project rates) (fun _ =>
  ([], Done)))))))).

(** The requests a trace sends to Coroot, and those sent after login. *)
Definition is_login_call (ev : event) : bool :=
  match ev with CorootCall _ ApiLogin _ => true | _ => false end.

Definition is_discovery_or_update_call (ev : event) : bool :=
  match ev with
  | CorootCall _ ApiProjects _ => true
  | CorootCall _ (ApiOverview _) _ => true
  | CorootCall _ (ApiCustomCloudPricing _) _ => true
  | _ => false
  end.

(** A server is unresolvable when line 114 finds no price entry for it. *)
Definition unresolvable (price_lookup : gmap string (gmap string prices_t))
    (server : server_t) : Prop :=
  lookup_prices price_lookup server = None.

(** ** Sample inputs *)

Definition sample_catalog : list server_type_t :=
  [ ServerType "cx22" [("fsn1", Prices 0.0066 3.79); ("nbg1", Prices 0.0066 3.79)];
    ServerType "cpx31" [("fsn1", Prices 0.025 15.59)] ].

Definition web1 : server_t := Server "web-1" "cx22" 2 4 "fsn1".
Definition db1 : server_t := Server "db-1" "cpx31" 4 8 "fsn1".
Definition legacy : server_t := Server "legacy" "cx11" 1 2 "hel1".
Definition stray : server_t := Server "stray" "cx22" 2 4 "ash".

Definition sample_environ : gmap string string :=
  dict_of [("HETZNER_TOKEN", "hz-token"); ("COROOT_EMAIL", "admin@example.org");
           ("COROOT_PASSWORD", "secret")].

(** A world given by its inventory and its answers to login, to the
    project list and to the overview probe; the final update is accepted. *)
Definition sample_world (servers : list server_t)
    (login_answer projects_answer overview_answer : response) : World :=
  {| hetzner_pricing := HzBody sample_catalog;
     hetzner_servers := HzBody servers;
     coroot := fun _ path _ =>
       match path with
       | ApiLogin => login_answer
       | ApiProjects => projects_answer
       | ApiOverview _ => overview_answer
       | ApiCustomCloudPricing _ => RespBlank
       end |}.

(** The system of lines 133-135 solved over the rationals, where no
    rounding takes place. *)
Definition solve_exact (ratio H C Mem : Q) : Q * Q :=
  let per_memory := (H / (ratio * C + Mem))%Q in
  ((ratio * per_memory)%Q, per_memory).

(** Totals of the scenario 0.5 EUR/hr, 8 vCPU, 32 GB. *)
Definition scenario_totals : totals_t :=
  {| total_hourly := 0.5; total_vcpus := 8; total_ram_gb := 32 |}.



(** The request of line 150 fails with the given status: the
    [RuntimeError] that [coroot_request] raises for it. *)
Definition AuthenticationError (code : Z) (body_text : string) : exn :=
  RuntimeError code "POST" ApiLogin body_text.

(** The project-list request failed, or came back with nothing in it. *)
Definition list_failed_or_empty (r : response) : bool :=
  match r with
  | RespStatus _ _ | RespNone | RespGarbage => true
  | RespBlank | RespJSON (JArr []) => true
  | RespJSON _ => false
  end.

Definition projects_call : event := CorootCall "GET" ApiProjects None.
Definition overview_call : event := CorootCall "GET" (ApiOverview "default") None.

Definition named_project : list (string * json) :=
  [("name", JStr "prod"); ("id", JStr "p1")].

(** A project whose name is the empty string. *)
Definition unnamed_project : list (string * json) :=
  [("name", JStr ""); ("id", JStr "prod")].

(** A project descriptor with neither a name nor an id. *)
Definition bare_project : list (string * json) := [("owner", JStr "ops")].

(** A world seen from section 5 only: its answers to the project list and
    to the overview probe. *)
Definition discovery_world (projects_answer overview_answer : response) : World :=
  sample_world [web1] RespBlank projects_answer overview_answer.

(** ** The requests of one run *)

Definition pricing_get : event := HetznerGet "/v1/pricing".
Definition servers_get : event := HetznerGet "/v1/servers".

(** The request of line 150 for the configured credentials. *)
Definition login_call (environ : gmap string string) : event :=
  CorootCall "POST" ApiLogin
    (Some (login_body (env_get environ "COROOT_EMAIL" "")
                      (env_get environ "COROOT_PASSWORD" ""))).

(** The request of line 187. *)
Definition update_call (project : json) (rates : float * float) : event :=
  CorootCall "POST" (ApiCustomCloudPricing project) (Some (pricing_body rates.1 rates.2)).

Definition is_update_call (ev : event) : bool :=
  match ev with CorootCall _ (ApiCustomCloudPricing _) _ => true | _ => false end.

Definition is_coroot_call (ev : event) : bool :=
  match ev with CorootCall _ _ _ => true | HetznerGet _ => false end.

Definition is_discovery_call (ev : event) : bool :=
  match ev with
  | CorootCall _ ApiProjects _ => true
  | CorootCall _ (ApiOverview _) _ => true
  | _ => false
  end.

(** How far a run got: one case per section in which it can stop, with
    what each earlier section produced. *)
Inductive run_spec (environ : gmap string string) (w : World)
  : list event -> outcome -> Prop :=
| StopConfig e :
    check_required environ REQUIRED = ([], Raise e) ->
    run_spec environ w [] (Failed Config e)
| StopFetch t1 e :
    forallb (env_set environ) REQUIRED = true ->
    fetch w = (t1, Raise e) ->
    (t1 = [pricing_get] \/ t1 = [pricing_get; servers_get]) ->
    run_spec environ w t1 (Failed Fetch e)
| StopAggregate price_lookup servers e :
    forallb (env_set environ) REQUIRED = true ->
    fetch w = ([pricing_get; servers_get], Ok (price_lookup, servers)) ->
    aggregate_stage price_lookup servers = ([], Raise e) ->
    run_spec environ w [pricing_get; servers_get] (Failed Aggregate e)
| StopDerive price_lookup servers t e :
    forallb (env_set environ) REQUIRED = true ->
    fetch w = ([pricing_get; servers_get], Ok (price_lookup, servers)) ->
    aggregate_stage price_lookup servers = ([], Ok t) ->
    derive_stage t = ([], Raise e) ->
    run_spec environ w [pricing_get; servers_get] (Failed Derive e)
| StopAuthenticate price_lookup servers t rates e :
    forallb (env_set environ) REQUIRED = true ->
    fetch w = ([pricing_get; servers_get], Ok (price_lookup, servers)) ->
    aggregate_stage price_lookup servers = ([], Ok t) ->
    derive_stage t = ([], Ok rates) ->
    login w (env_get environ "COROOT_EMAIL" "") (env_get environ "COROOT_PASSWORD" "")
    = ([login_call environ], Raise e) ->
    run_spec environ w [pricing_get; servers_get; login_call environ]
      (Failed Authenticate e)
| StopDiscover price_lookup servers t rates td e :
    forallb (env_set environ) REQUIRED = true ->
    fetch w = ([pricing_get; servers_get], Ok (price_lookup, servers)) ->
    aggregate_stage price_lookup servers = ([], Ok t) ->
    derive_stage t = ([], Ok rates) ->
    login w (env_get environ "COROOT_EMAIL" "") (env_get environ "COROOT_PASSWORD" "")
    = ([login_call environ], Ok tt) ->
    discover w (env_get environ "COROOT_PROJECT" "") = (td, Raise e) ->
    run_spec environ w ([pricing_get; servers_get; login_call environ] ++ td)
      (Failed Discover e)
| StopUpdate price_lookup servers t rates td project e :
    forallb (env_set environ) REQUIRED = true ->
    fetch w = ([pricing_get; servers_get], Ok (price_lookup, servers)) ->
    aggregate_stage price_lookup servers = ([], Ok t) ->
    derive_stage t = ([], Ok rates) ->
    login w (env_get environ "COROOT_EMAIL" "") (env_get environ "COROOT_PASSWORD" "")
    = ([login_call environ], Ok tt) ->
    discover w (env_get environ "COROOT_PROJECT" "") = (td, Ok project) ->
    update_pricing w project rates = ([update_call project rates], Raise e) ->
    run_spec environ w
      ([pricing_get; servers_get; login_call environ] ++ td ++ [update_call project rates])
      (Failed Update e)
| Completed price_lookup servers t rates td project :
    forallb (env_set environ) REQUIRED = true ->
    fetch w = ([pricing_get; servers_get], Ok (price_lookup, servers)) ->
    aggregate_stage price_lookup servers = ([], Ok t) ->
    derive_stage t = ([], Ok rates) ->
    login w (env_get environ "COROOT_EMAIL" "") (env_get environ "COROOT_PASSWORD" "")
    = ([login_call environ], Ok tt) ->
    discover w (env_get environ "COROOT_PROJECT" "") = (td, Ok project) ->
    update_pricing w project rates = ([update_call project rates], Ok tt) ->
    run_spec environ w
      ([pricing_get; servers_get; login_call environ] ++ td ++ [update_call project rates])
      Done.

(** Environments used as examples: complete but for the missing or empty
    [COROOT_EMAIL], and complete with an explicit project. *)
Definition environ_without_email : gmap string string :=
  dict_of [("HETZNER_TOKEN", "hz-token"); ("COROOT_EMAIL", EmptyString);
           ("COROOT_PASSWORD", "secret")].

Definition environ_with_project : gmap string string :=
  <[ "COROOT_PROJECT" := "staging" ]> sample_environ.

(** A world whose provider answers as given and whose Coroot accepts
    everything with a blank body. *)
Definition provider_world (pricing : hz_response (list server_type_t))
    (servers : hz_response (list server_t)) : World :=
  {| hetzner_pricing := pricing;
     hetzner_servers := servers;
     coroot := fun _ _ _ => RespBlank |}.

(** A world in which everything succeeds up to the final update, which is
    answered with an error status. *)
Definition rejecting_world : World :=
  {| hetzner_pricing := HzBody sample_catalog;
     hetzner_servers := HzBody [web1; db1];
     coroot := fun _ path _ =>
       match path with
       | ApiLogin => RespBlank
       | ApiProjects => RespJSON (JArr [JObj named_project])
       | ApiOverview _ => RespBlank
       | ApiCustomCloudPricing _ => RespStatus 403 "Forbidden"
       end |}.

(** A world in which every request succeeds. *)
Definition happy_world : World :=
  sample_world [web1; legacy; db1] RespBlank (RespJSON (JArr [JObj named_project])) RespBlank.

(** A project list with an entry that is not an object. *)
Definition mixed_projects : list json := [JObj named_project; JStr "stray"].

(** The value a left-to-right scan of [items] leaves under [key]: that of
    the last item carrying the key. *)
Fixpoint last_match {V} (key : string) (items : list (string * V)) : option V :=
  match items with
  | [] => None
  | (k, v) :: rest =>
      match last_match key rest with
      | Some v' => Some v'
      | None => if String.eqb k key then Some v else None
      end
  end.

(** A catalog that lists the type cx22 twice. *)
Definition repeated_catalog : list server_type_t :=
  [ ServerType "cx22" [("fsn1", Prices 0.0066 3.79); ("nbg1", Prices 0.0066 3.79)];
    ServerType "cx22" [("fsn1", Prices 0.0074 4.35)] ].

(** The cores of the servers that have a price entry, added up. *)
Definition priced_vcpus (price_lookup : gmap string (gmap string prices_t))
    (servers : list server_t) : Z :=
  foldr Z.add 0 (map (fun ps => vcpus ps.2) (priced_subset price_lookup servers)).

(** A priced server that reports no cores. *)
Definition coreless : server_t := Server "coreless" "cx22" 0 4 "fsn1".

(** ** Classes of binary64 values *)

(** NaN or an infinity, on the decoded form of a float. *)
Definition sf_nonfinite (x : spec_float) : bool :=
  match x with
  | S754_nan | S754_infinity _ => true
  | S754_zero _ | S754_finite _ _ _ => false
  end.

(** Totals poisoned by a catalog price of infinity. *)
Definition poisoned_totals : totals_t :=
  {| total_hourly := infinity; total_vcpus := 2; total_ram_gb := 4 |}.

(** Totals of a fleet that costs nothing. *)
Definition free_totals : totals_t :=
  {| total_hourly := 0; total_vcpus := 2; total_ram_gb := 4 |}.

(** Not negative: zero of either sign, a positive number, plus infinity,
    and also NaN, which carries no sign. *)
Definition sf_nonneg (x : spec_float) : bool :=
  match x with
  | S754_nan | S754_zero _ => true
  | S754_infinity s | S754_finite s _ _ => negb s
  end.

Definition sf_nonzero (x : spec_float) : bool :=
  match x with S754_zero _ => false | _ => true end.

(** A response that [coroot_request] returns from: a success status with a
    blank body or with a body that decodes. *)
Definition accepted (r : response) : bool :=
  match r with
  | RespJSON _ | RespBlank => true
  | RespGarbage | RespStatus _ _ | RespNone => false
  end.

(** * Properties *)

(** ** The run monad *)

Lemma bind_ret_l {A B} (a : A) (k : A -> M B) : bind (ret a) k = k a.
Proof. unfold bind, ret. destruct (k a) as [t r]. reflexivity. Qed.

Lemma bind_raise {A B} (e : exn) (k : A -> M B) : bind (raise e) k = raise e.
Proof. reflexivity. Qed.

Lemma bind_lift_ok {A B} (a : A) (k : A -> M B) : bind (lift (Ok a)) k = k a.
Proof. apply bind_ret_l. Qed.

Lemma bind_lift_raise {A B} (e : exn) (k : A -> M B) : bind (lift (Raise e)) k = raise e.
Proof. reflexivity. Qed.

(** ** Aggregation *)

Section Aggregation.

Variable price_lookup : gmap string (gmap string prices_t).

Lemma loop_body_skip acc server :
  unresolvable price_lookup server -> loop_body price_lookup acc server = acc.
Proof. unfold unresolvable, loop_body. intros ->. reflexivity. Qed.

Lemma foldl_loop_body_skip acc before server after :
  unresolvable price_lookup server ->
  foldl (loop_body price_lookup) acc (before ++ server :: after)
  = foldl (loop_body price_lookup) acc (before ++ after).
Proof.
  intros Hs. rewrite !foldl_app. cbn [foldl].
  rewrite (loop_body_skip _ _ Hs). reflexivity.
Qed.

Lemma foldl_loop_body_priced servers : forall acc,
  foldl (loop_body price_lookup) acc servers
  = foldl (fun acc ps => add_server acc ps.1 ps.2) acc (priced_subset price_lookup servers).
Proof.
  induction servers as [|server servers IH]; intros acc; [reflexivity|].
  unfold priced_subset in *. cbn [foldl omap list_omap]. unfold loop_body at 2.
  destruct (lookup_prices price_lookup server) as [prices|]; cbn; apply IH.
Qed.

Lemma foldl_loop_body_unresolvable servers : forall acc,
  Forall (unresolvable price_lookup) servers ->
  foldl (loop_body price_lookup) acc servers = acc.
Proof.
  induction servers as [|server servers IH]; intros acc Hall; [reflexivity|].
  inversion Hall as [|? ? Hs Hrest]; subst. cbn [foldl].
  rewrite (loop_body_skip _ _ Hs). apply IH, Hrest.
Qed.

End Aggregation.

(** The accumulators after adding a list of priced servers, field by
    field. *)
Lemma foldl_add_server_fields priced : forall acc,
  foldl (fun acc ps => add_server acc ps.1 ps.2) acc priced
  = {| total_hourly :=
         foldl PrimFloat.add (total_hourly acc)
           (map (fun ps : prices_t * server_t => hourly ps.1) priced);
       total_vcpus :=
         foldl Z.add (total_vcpus acc)
           (map (fun ps : prices_t * server_t => vcpus ps.2) priced);
       total_ram_gb :=
         foldl PrimFloat.add (total_ram_gb acc)
           (map (fun ps : prices_t * server_t => ram_gb ps.2) priced) |}.
Proof.
  induction priced as [|ps priced IH]; intros acc.
  - destruct acc. reflexivity.
  - cbn [foldl map]. rewrite IH. reflexivity.
Qed.

(** C3. A server whose (server_type, location) has no catalog entry does
    not affect the totals: [total_hourly] is the sum of the hourly prices,
    [total_vcpus] the sum of the cores and [total_ram_gb] the sum of the
    memory sizes over the priced subset of the servers only, and removing
    one unresolvable server from the list leaves the totals unchanged. *)
Theorem aggregate_skip_semantics price_lookup servers :
  aggregate price_lookup servers = sum_over_priced price_lookup servers
  /\ forall before server after,
       servers = before ++ server :: after ->
       unresolvable price_lookup server ->
       aggregate price_lookup servers = aggregate price_lookup (before ++ after).
Proof.
  split.
  - unfold aggregate. rewrite foldl_loop_body_priced, foldl_add_server_fields.
    reflexivity.
  - intros before server after -> Hs. apply foldl_loop_body_skip, Hs.
Qed.

Lemma aggregate_skip_semantics_witness :
  unresolvable (price_lookup_of sample_catalog) legacy
  /\ aggregate (price_lookup_of sample_catalog) [web1; legacy; db1]
     = aggregate (price_lookup_of sample_catalog) [web1; db1]
  /\ aggregate (price_lookup_of sample_catalog) [web1; legacy; db1]
     = {| total_hourly := (0 + 0.0066 + 0.025)%float;
          total_vcpus := 0 + 2 + 4;
          total_ram_gb := (0 + 4 + 8)%float |}.
Proof.
  assert (Hs : unresolvable (price_lookup_of sample_catalog) legacy)
    by (vm_compute; reflexivity).
  split; [exact Hs|].
  destruct (aggregate_skip_semantics (price_lookup_of sample_catalog) [web1; legacy; db1])
    as [Hsum Hskip].
  split; [exact (Hskip [web1] legacy [db1] eq_refl Hs)|].
  rewrite Hsum. vm_compute. reflexivity.
Defined.

(** ** Fetch and configuration *)

Lemma check_required_trace environ vars : (check_required environ vars).1 = [].
Proof.
  induction vars as [|var vars IH]; [reflexivity|]. cbn [check_required].
  destruct (env_set environ var); [exact IH | reflexivity].
Qed.

Lemma check_required_ok environ vars :
  forallb (env_set environ) vars = true -> check_required environ vars = ret tt.
Proof.
  induction vars as [|var vars IH]; [reflexivity|]. cbn [forallb check_required].
  destruct (env_set environ var); [exact IH | discriminate].
Qed.

Lemma fetch_nonempty w server_types server servers :
  hetzner_pricing w = HzBody server_types ->
  hetzner_servers w = HzBody (server :: servers) ->
  fetch w = ([HetznerGet "/v1/pricing"; HetznerGet "/v1/servers"],
             Ok (price_lookup_of server_types, server :: servers)).
Proof. intros Hp Hs. unfold fetch, hetzner_get. rewrite Hp, Hs. reflexivity. Qed.

Lemma fetch_empty w server_types :
  hetzner_pricing w = HzBody server_types ->
  hetzner_servers w = HzBody [] ->
  fetch w = ([HetznerGet "/v1/pricing"; HetznerGet "/v1/servers"], Raise EmptyInventory).
Proof. intros Hp Hs. unfold fetch, hetzner_get. rewrite Hp, Hs. reflexivity. Qed.

(** C4. When the server list is non-empty and none of its entries has a
    catalog entry, the fold leaves [total_vcpus] at 0, section 2 ends with
    NoPriceableServers, and the run stops there: section 3 and its division
    are never entered. *)
Theorem degenerate_fleet_rejected price_lookup servers :
  servers <> [] ->
  Forall (unresolvable price_lookup) servers ->
  total_vcpus (aggregate price_lookup servers) = 0
  /\ aggregate_stage price_lookup servers = raise NoPriceableServers
  /\ forall environ w server_types,
       forallb (env_set environ) REQUIRED = true ->
       hetzner_pricing w = HzBody server_types ->
       price_lookup = price_lookup_of server_types ->
       hetzner_servers w = HzBody servers ->
       run environ w
       = ([HetznerGet "/v1/pricing"; HetznerGet "/v1/servers"],
          Failed Aggregate NoPriceableServers).
Proof.
  intros Hne Hall.
  assert (Hagg : aggregate price_lookup servers = totals0)
    by (apply foldl_loop_body_unresolvable, Hall).
  assert (Hstage : aggregate_stage price_lookup servers = raise NoPriceableServers)
    by (unfold aggregate_stage; rewrite Hagg; reflexivity).
  split; [rewrite Hagg; reflexivity|]. split; [exact Hstage|].
  intros environ w server_types Henv Hp -> Hs.
  destruct servers as [|server servers]; [contradiction|].
  unfold run. rewrite (check_required_ok _ _ Henv).
  cbn [section ret]. rewrite (fetch_nonempty _ _ _ _ Hp Hs).
  cbn [section]. rewrite Hstage. reflexivity.
Qed.

Lemma degenerate_fleet_rejected_witness :
  run sample_environ (sample_world [legacy; stray] RespBlank RespBlank RespBlank)
  = ([HetznerGet "/v1/pricing"; HetznerGet "/v1/servers"],
     Failed Aggregate NoPriceableServers).
Proof.
  refine (proj2 (proj2 (degenerate_fleet_rejected (price_lookup_of sample_catalog)
                          [legacy; stray] _ _))
            sample_environ (sample_world [legacy; stray] RespBlank RespBlank RespBlank)
            sample_catalog _ eq_refl eq_refl eq_refl).
  - discriminate.
  - repeat constructor; vm_compute; reflexivity.
  - vm_compute. reflexivity.
Defined.

(** C8. When the provider returns an empty server list, the run ends in
    section 1 with EmptyInventory, straight after the two provider
    requests: sections 2 to 6 are not entered. *)
Theorem empty_inventory_rejected environ w server_types :
  forallb (env_set environ) REQUIRED = true ->
  hetzner_pricing w = HzBody server_types ->
  hetzner_servers w = HzBody [] ->
  run environ w
  = ([HetznerGet "/v1/pricing"; HetznerGet "/v1/servers"], Failed Fetch EmptyInventory).
Proof.
  intros Henv Hp Hs. unfold run. rewrite (check_required_ok _ _ Henv).
  cbn [section ret]. rewrite (fetch_empty _ _ Hp Hs). reflexivity.
Qed.

Lemma empty_inventory_rejected_witness :
  run sample_environ (sample_world [] RespBlank RespBlank RespBlank)
  = ([HetznerGet "/v1/pricing"; HetznerGet "/v1/servers"], Failed Fetch EmptyInventory).
Proof.
  apply (empty_inventory_rejected sample_environ _ sample_catalog);
    [vm_compute; reflexivity | reflexivity | reflexivity].
Defined.

(** ** Rate derivation *)

Lemma derive_rates_inv t rates :
  derive_rates t = Ok rates ->
  exists c,
    PyFloat.of_int (total_vcpus t) = Ok c
    /\ PyFloat.is_zero (CPU_MEMORY_RATIO * c + total_ram_gb t) = false
    /\ rates = closed_form CPU_MEMORY_RATIO (total_hourly t) c (total_ram_gb t).
Proof.
  unfold derive_rates, PyFloat.truediv.
  destruct (PyFloat.of_int (total_vcpus t)) as [c|e]; [|discriminate].
  destruct (PyFloat.is_zero (CPU_MEMORY_RATIO * c + total_ram_gb t)) eqn:Hz;
    [discriminate|].
  intros [= <-]. exists c. repeat split. exact Hz.
Qed.

Lemma derive_rates_intro t c :
  PyFloat.of_int (total_vcpus t) = Ok c ->
  PyFloat.is_zero (CPU_MEMORY_RATIO * c + total_ram_gb t) = false ->
  derive_rates t = Ok (closed_form CPU_MEMORY_RATIO (total_hourly t) c (total_ram_gb t)).
Proof.
  intros Hc Hz. unfold derive_rates, PyFloat.truediv. rewrite Hc, Hz. reflexivity.
Qed.

(** C5. For totals with [total_vcpus > 0], lines 137-138 yield rates
    exactly when the cores convert to a float and the denominator is not
    zero, and the rates are then the closed form
    [per_memory_gb = total_hourly / (ratio * total_vcpus + total_ram_gb)],
    [per_cpu_core = ratio * per_memory_gb]. *)
Theorem derive_rates_closed_form t rates :
  0 < total_vcpus t ->
  derive_rates t = Ok rates
  <-> exists c,
        PyFloat.of_int (total_vcpus t) = Ok c
        /\ PyFloat.is_zero (CPU_MEMORY_RATIO * c + total_ram_gb t) = false
        /\ rates = closed_form CPU_MEMORY_RATIO (total_hourly t) c (total_ram_gb t).
Proof.
  intros _. split; [apply derive_rates_inv|].
  intros (c & Hc & Hz & ->). apply derive_rates_intro; assumption.
Qed.

Lemma derive_rates_closed_form_witness :
  derive_rates scenario_totals = Ok (closed_form CPU_MEMORY_RATIO 0.5 8 32).
Proof.
  apply (derive_rates_closed_form scenario_totals); [reflexivity|].
  exists 8%float. repeat split; vm_compute; reflexivity.
Defined.

(** Over the rationals the closed form solves the system of lines 133-135
    exactly. *)
Lemma solve_exact_reconstructs (ratio H C Mem : Q) :
  ~ (ratio * C + Mem == 0)%Q ->
  let '(per_cpu, per_memory) := solve_exact ratio H C Mem in
  (per_cpu * C + per_memory * Mem == H)%Q /\ (per_cpu == ratio * per_memory)%Q.
Proof.
  intros Hden. unfold solve_exact. split; [field; exact Hden | reflexivity].
Qed.




(** C6, as amended. On 0.5 EUR/hr, 8 vCPU, 32 GB the script, whose ratio is
    0.03465/0.003938 = 8.7988826815642458, produces
    pm = 0.0048832387603666523 and pc = 0.042967044958533394; the
    reconstruction pc*8 + pm*32 is 0.5 and the assertion passes.  The values
    0.0048828125 and 0.04296875 are those of the closed form at ratio 8.8. *)
Theorem scenario_rates :
  CPU_MEMORY_RATIO = 8.7988826815642458%float
  /\ derive_stage scenario_totals
     = ret (0.042967044958533394%float, 0.0048832387603666523%float)
  /\ (0.042967044958533394 * 8 + 0.0048832387603666523 * 32)%float = 0.5%float
  /\ closed_form 8.8 0.5 8 32 = (0.04296875%float, 0.0048828125%float).
Proof. repeat split; vm_compute; reflexivity. Qed.

(** C6, as stated, fails: the script does not produce pm = 0.0048828125 and
    pc = 0.04296875 on these totals. *)
Lemma scenario_rates_counterexample :
  derive_stage scenario_totals <> ret (0.04296875%float, 0.0048828125%float).
Proof.
  intros H.
  apply (f_equal (fun m : M (float * float) =>
                    match m.2 with
                    | Ok (_, pm) => PrimFloat.eqb pm 0.0048828125
                    | Raise _ => false
                    end)) in H.
  vm_compute in H. discriminate H.
Qed.

(** ** Traces of the sections without Coroot requests *)

Lemma aggregate_stage_trace price_lookup servers :
  (aggregate_stage price_lookup servers).1 = [].
Proof.
  unfold aggregate_stage.
  destruct (Z.eqb (total_vcpus (aggregate price_lookup servers)) 0); reflexivity.
Qed.

Lemma derive_stage_trace t : (derive_stage t).1 = [].
Proof.
  unfold derive_stage. destruct (derive_rates t) as [[pc pm]|e]; [|reflexivity].
  rewrite bind_lift_ok. destruct (PyFloat.of_int (total_vcpus t)); [|reflexivity].
  rewrite bind_lift_ok. destruct (reconstructs t a pc pm); reflexivity.
Qed.

Lemma fetch_trace w :
  Forall (fun ev => is_discovery_or_update_call ev = false /\ is_login_call ev = false)
    (fetch w).1.
Proof.
  unfold fetch, hetzner_get.
  destruct (hetzner_pricing w); cbn; [|repeat constructor..].
  destruct (hetzner_servers w) as [[|server servers]| |]; cbn; repeat constructor.
Qed.

Lemma login_rejected_run w email password code body_text :
  coroot w "POST" ApiLogin (Some (login_body email password)) = RespStatus code body_text ->
  login w email password
  = ([CorootCall "POST" ApiLogin (Some (login_body email password))],
     Raise (AuthenticationError code body_text)).
Proof. intros H. unfold login, coroot_request. rewrite H. reflexivity. Qed.

(** A run that stopped with only provider requests behind it. *)
Local Ltac stopped_before_login Hfetch :=
  repeat split; cbn;
  [ eapply Forall_impl; [exact Hfetch|]; intros ? [? _]; assumption
  | discriminate
  | let Hex := fresh "Hex" in
    let ev := fresh "ev" in
    let Hin := fresh "Hin" in
    let Hev := fresh "Hev" in
    intros Hex; apply existsb_exists in Hex as (ev & Hin & Hev);
    rewrite Forall_forall in Hfetch; apply list_elem_of_In in Hin;
    destruct (Hfetch ev Hin) as [_ ?]; congruence ].

(** C9. When the login request is answered with an error status, no
    project-list, overview or pricing-update request appears anywhere in
    the run's trace and the run does not complete; and once the login
    request has been sent, the run ends in section 4 with the
    [RuntimeError] of that status (AuthenticationError). *)
Theorem login_failure_aborts environ w code body_text :
  (forall body, coroot w "POST" ApiLogin body = RespStatus code body_text) ->
  Forall (fun ev => is_discovery_or_update_call ev = false) (run environ w).1
  /\ (run environ w).2 <> Done
  /\ (existsb is_login_call (run environ w).1 = true ->
      (run environ w).2 = Failed Authenticate (AuthenticationError code body_text)).
Proof.
  intros Hlogin. unfold run.
  pose proof (check_required_trace environ REQUIRED) as Hcfg.
  destruct (check_required environ REQUIRED) as [t0 [[]|e0]]; cbn in Hcfg; subst t0;
    cbn [section]; [|repeat split; [constructor | discriminate | discriminate]].
  pose proof (fetch_trace w) as Hfetch.
  destruct (fetch w) as [t1 [[price_lookup servers]|e1]]; cbn [fst] in Hfetch; cbn [section].
  2:{ stopped_before_login Hfetch. }
  pose proof (aggregate_stage_trace price_lookup servers) as Hagg.
  destruct (aggregate_stage price_lookup servers) as [t2 [t|e2]]; cbn in Hagg; subst t2;
    cbn [section].
  2:{ rewrite app_nil_r. stopped_before_login Hfetch. }
  pose proof (derive_stage_trace t) as Hder.
  destruct (derive_stage t) as [t3 [rates|e3]]; cbn in Hder; subst t3; cbn [section].
  2:{ rewrite app_nil_r. stopped_before_login Hfetch. }
  rewrite (login_rejected_run _ _ _ _ _ (Hlogin _)). cbn [section app fst snd].
  repeat split.
  - apply Forall_app. split.
    + eapply Forall_impl; [exact Hfetch|]. intros ev [H _]. exact H.
    + repeat constructor.
  - discriminate.
Qed.

Lemma login_failure_aborts_witness :
  run sample_environ (sample_world [web1; legacy; db1] (RespStatus 401 "Unauthorized")
                        RespBlank RespBlank)
  = ([HetznerGet "/v1/pricing"; HetznerGet "/v1/servers";
      CorootCall "POST" ApiLogin (Some (login_body "admin@example.org" "secret"))],
     Failed Authenticate (AuthenticationError 401 "Unauthorized")).
Proof.
  pose (w := sample_world [web1; legacy; db1] (RespStatus 401 "Unauthorized")
               RespBlank RespBlank).
  destruct (login_failure_aborts sample_environ w 401 "Unauthorized" (fun _ => eq_refl))
    as (_ & _ & Hout).
  assert (Htrace : (run sample_environ w).1
                   = [HetznerGet "/v1/pricing"; HetznerGet "/v1/servers";
                      CorootCall "POST" ApiLogin
                        (Some (login_body "admin@example.org" "secret"))])
    by (vm_compute; reflexivity).
  specialize (Hout ltac:(rewrite Htrace; reflexivity)).
  fold w. destruct (run sample_environ w) as [trace o]. cbn in *. congruence.
Defined.

(** ** Project discovery *)

Lemma dict_get_absent d key dflt : has_key d key = false -> dict_get d key dflt = dflt.
Proof.
  induction d as [|[k v] d IH]; [reflexivity|]. cbn.
  destruct (String.eqb k key); [discriminate|]. exact IH.
Qed.

Lemma dict_get_present d key dflt dflt' :
  has_key d key = true -> dict_get d key dflt = dict_get d key dflt'.
Proof.
  induction d as [|[k v] d IH]; [discriminate|]. cbn.
  destruct (String.eqb k key); [reflexivity|]. exact IH.
Qed.

(** A non-empty list of dicts resolves to line 161's value with the one
    list request. *)
Lemma discover_from_list w d rest :
  coroot w "GET" ApiProjects None = RespJSON (JArr (JObj d :: rest)) ->
  forallb is_dict rest = true ->
  discover w ""
  = ([projects_call],
     Ok (py_or (dict_get d "name" JNull) (dict_get d "id" (JStr "default")))).
Proof.
  intros Hresp Hrest. unfold discover, list_projects, coroot_request, found_projects.
  rewrite Hresp. cbn. rewrite Hrest. reflexivity.
Qed.

(** Every way the [try] body of lines 159-165 can fail is caught by
    [except Exception]. *)
Lemma list_projects_raises_Exception w e :
  (list_projects w).2 = Raise e -> is_Exception e = true.
Proof.
  unfold list_projects, coroot_request, found_projects.
  destruct (coroot w "GET" ApiProjects None) as [j| | | |]; cbn;
    try (intros [= <-]; reflexivity).
  unfold py_or. destruct (truthy j); cbn; [|intros [= <-]; reflexivity].
  destruct j as [| | | | |[|p0 rest]|]; cbn; try (intros [= <-]; reflexivity).
  destruct p0; cbn; try (intros [= <-]; reflexivity).
  destruct (forallb is_dict rest); cbn; [discriminate | intros [= <-]; reflexivity].
Qed.

Lemma list_failed_or_empty_raises w :
  list_failed_or_empty (coroot w "GET" ApiProjects None) = true ->
  exists e, list_projects w = ([projects_call], Raise e).
Proof.
  unfold list_projects, coroot_request.
  destruct (coroot w "GET" ApiProjects None) as [j| | | |]; cbn; intros H;
    try (eexists; reflexivity).
  destruct j as [| | | | |[|p0 rest]|]; try discriminate. eexists; reflexivity.
Qed.

(** The fallback of lines 167-181, entered after the [try] body failed. *)
Lemma discover_fallback w e :
  (list_projects w).2 = Raise e ->
  discover w ""
  = let '(t, r) := probe w CANDIDATES in ((list_projects w).1 ++ t, r).
Proof.
  intros Hraise. pose proof (list_projects_raises_Exception _ _ Hraise) as Hexc.
  unfold discover. cbn [String.eqb]. unfold try_except.
  destruct (list_projects w) as [t [project|e']]; cbn in Hraise; [discriminate|].
  injection Hraise as ->. rewrite Hexc. reflexivity.
Qed.

Lemma probe_default_found w j :
  coroot w "GET" (ApiOverview "default") None = RespJSON j ->
  j <> JNull ->
  probe w CANDIDATES = ([overview_call], Ok (JStr "default")).
Proof.
  intros Hresp Hj. unfold CANDIDATES, probe, coroot_request. rewrite Hresp.
  destruct j; cbn; try reflexivity. contradiction.
Qed.

Lemma probe_default_rejected w code body_text :
  coroot w "GET" (ApiOverview "default") None = RespStatus code body_text ->
  probe w CANDIDATES = ([overview_call], Raise ProjectDiscoveryError).
Proof.
  intros Hresp. unfold CANDIDATES, probe, coroot_request. rewrite Hresp. reflexivity.
Qed.

(** C2, as amended. With no project configured: (a) a non-empty list of
    project dicts resolves to the first entry's name when that is present
    and truthy (non-empty), and to its id when the name key is absent and
    the id key is present; (b) after a failed or empty project list, an
    overview of "default" that returns a body other than null resolves to
    "default"; (c) after a failed or empty project list and an error status
    from the overview, discovery ends with ProjectDiscoveryError. *)
Theorem discovery_fallback_order w :
  (forall d rest,
     coroot w "GET" ApiProjects None = RespJSON (JArr (JObj d :: rest)) ->
     forallb is_dict rest = true ->
     (truthy (dict_get d "name" JNull) = true ->
      discover w "" = ([projects_call], Ok (dict_get d "name" JNull)))
     /\ (has_key d "name" = false -> has_key d "id" = true ->
         discover w "" = ([projects_call], Ok (dict_get d "id" JNull))))
  /\ (list_failed_or_empty (coroot w "GET" ApiProjects None) = true ->
      forall j,
        coroot w "GET" (ApiOverview "default") None = RespJSON j -> j <> JNull ->
        discover w "" = ([projects_call; overview_call], Ok (JStr "default")))
  /\ (list_failed_or_empty (coroot w "GET" ApiProjects None) = true ->
      forall code body_text,
        coroot w "GET" (ApiOverview "default") None = RespStatus code body_text ->
        discover w "" = ([projects_call; overview_call], Raise ProjectDiscoveryError)).
Proof.
  split; [|split].
  - intros d rest Hresp Hrest. rewrite (discover_from_list _ _ _ Hresp Hrest).
    unfold py_or. split.
    + intros ->. reflexivity.
    + intros Hname Hid. rewrite (dict_get_absent _ _ _ Hname). cbn.
      rewrite (dict_get_present _ _ _ JNull Hid). reflexivity.
  - intros Hlist j Hresp Hj.
    destruct (list_failed_or_empty_raises _ Hlist) as [e He].
    rewrite (discover_fallback w e) by (rewrite He; reflexivity).
    rewrite (probe_default_found _ _ Hresp Hj), He. reflexivity.
  - intros Hlist code body_text Hresp.
    destruct (list_failed_or_empty_raises _ Hlist) as [e He].
    rewrite (discover_fallback w e) by (rewrite He; reflexivity).
    rewrite (probe_default_rejected _ _ _ Hresp), He. reflexivity.
Qed.

Lemma discovery_fallback_order_witness :
  discover (discovery_world (RespJSON (JArr [JObj named_project])) RespBlank) ""
  = ([projects_call], Ok (JStr "prod"))
  /\ discover (discovery_world (RespStatus 404 "")
                 (RespJSON (JObj [("status", JStr "ok")]))) ""
     = ([projects_call; overview_call], Ok (JStr "default"))
  /\ discover (discovery_world (RespJSON (JArr [])) (RespStatus 404 "")) ""
     = ([projects_call; overview_call], Raise ProjectDiscoveryError).
Proof.
  split; [|split].
  - apply (proj1 (proj1 (discovery_fallback_order
                            (discovery_world (RespJSON (JArr [JObj named_project])) RespBlank))
                          named_project [] eq_refl eq_refl)).
    reflexivity.
  - apply (proj1 (proj2 (discovery_fallback_order
                           (discovery_world (RespStatus 404 "")
                              (RespJSON (JObj [("status", JStr "ok")])))))
             eq_refl (JObj [("status", JStr "ok")]) eq_refl).
    discriminate.
  - apply (proj2 (proj2 (discovery_fallback_order
                           (discovery_world (RespJSON (JArr [])) (RespStatus 404 ""))))
             eq_refl 404 "" eq_refl).
Defined.

(** C2, as stated, fails: a first entry whose name field is present but
    empty resolves to its id, not to its name. *)
Lemma discovery_fallback_order_counterexample :
  has_key unnamed_project "name" = true
  /\ dict_get unnamed_project "name" JNull = JStr ""
  /\ discover (discovery_world (RespJSON (JArr [JObj unnamed_project]))
                 RespBlank) ""
     = ([projects_call], Ok (JStr "prod"))
  /\ (discover (discovery_world (RespJSON (JArr [JObj unnamed_project]))
                  RespBlank) "").2
     <> Ok (dict_get unnamed_project "name" JNull).
Proof. repeat split; try reflexivity. cbn. discriminate. Qed.

(** C7, as amended. Once the fallback is entered (the [try] body failed),
    an overview of "default" whose body decodes to anything other than
    null makes "default" the resolved project. *)
Theorem overview_probe_confirms w e j :
  (list_projects w).2 = Raise e ->
  coroot w "GET" (ApiOverview "default") None = RespJSON j ->
  j <> JNull ->
  discover w "" = ((list_projects w).1 ++ [overview_call], Ok (JStr "default")).
Proof.
  intros Hraise Hresp Hj. rewrite (discover_fallback w e Hraise).
  rewrite (probe_default_found _ _ Hresp Hj). reflexivity.
Qed.

Lemma overview_probe_confirms_witness :
  discover (discovery_world RespNone (RespJSON (JObj []))) ""
  = ([projects_call; overview_call], Ok (JStr "default")).
Proof.
  apply (overview_probe_confirms
           (discovery_world RespNone (RespJSON (JObj []))) URLError (JObj []));
    [reflexivity | reflexivity | discriminate].
Defined.

(** C7, as stated, fails: an overview answered with a success status and a
    blank body, or with the body [null], is a non-error response, yet
    line 171 does not accept it and discovery ends with
    ProjectDiscoveryError. *)
Lemma overview_probe_counterexample :
  discover (discovery_world (RespStatus 404 "") RespBlank) ""
  = ([projects_call; overview_call], Raise ProjectDiscoveryError)
  /\ discover (discovery_world (RespStatus 404 "") (RespJSON JNull)) ""
     = ([projects_call; overview_call], Raise ProjectDiscoveryError).
Proof. split; reflexivity. Qed.

(** C10, as amended. In a non-empty project list whose entries are all
    JSON objects, when the first entry has no truthy (non-empty) name, the
    resolved project is the first entry's id, or the literal "default" when
    it has no id key; an empty-string name in particular is not used. *)
Theorem first_project_without_name w d rest :
  coroot w "GET" ApiProjects None = RespJSON (JArr (JObj d :: rest)) ->
  forallb is_dict rest = true ->
  truthy (dict_get d "name" JNull) = false ->
  discover w "" = ([projects_call], Ok (dict_get d "id" (JStr "default")))
  /\ (has_key d "id" = false ->
      discover w "" = ([projects_call], Ok (JStr "default")))
  /\ truthy (JStr "") = false.
Proof.
  intros Hresp Hrest Hname. rewrite (discover_from_list _ _ _ Hresp Hrest).
  unfold py_or. rewrite Hname. repeat split.
  intros Hid. rewrite (dict_get_absent _ _ _ Hid). reflexivity.
Qed.

Lemma first_project_without_name_witness :
  discover (discovery_world (RespJSON (JArr [JObj bare_project])) RespBlank) ""
  = ([projects_call], Ok (JStr "default"))
  /\ discover (discovery_world (RespJSON (JArr [JObj unnamed_project]))
                 RespBlank) ""
     = ([projects_call], Ok (JStr "prod")).
Proof.
  split.
  - apply (proj1 (proj2 (first_project_without_name
                           (discovery_world (RespJSON (JArr [JObj bare_project])) RespBlank)
                           bare_project [] eq_refl eq_refl eq_refl))).
    reflexivity.
  - apply (proj1 (first_project_without_name
                    (discovery_world (RespJSON (JArr [JObj unnamed_project])) RespBlank)
                    unnamed_project [] eq_refl eq_refl eq_refl)).
Defined.

(** C10, as stated, fails when the list holds an entry that is not an
    object: with a first entry that has neither name nor id, followed by a
    number, the list is discarded and a failed overview probe ends
    discovery instead of resolving "default"; and with a first entry whose
    name is empty and whose id is "prod", followed by null, the resolved
    project is the probed "default", not the id. *)
Lemma first_project_without_name_counterexample :
  truthy (dict_get bare_project "name" JNull) = false
  /\ has_key bare_project "id" = false
  /\ discover (discovery_world (RespJSON (JArr [JObj bare_project; JInt 1]))
                 (RespStatus 404 "Not Found")) ""
     = ([projects_call; overview_call], Raise ProjectDiscoveryError)
  /\ dict_get unnamed_project "name" JNull = JStr ""
  /\ dict_get unnamed_project "id" (JStr "default") = JStr "prod"
  /\ discover (discovery_world (RespJSON (JArr [JObj unnamed_project; JNull]))
                 (RespJSON (JObj [("status", JStr "ok")]))) ""
     = ([projects_call; overview_call], Ok (JStr "default")).
Proof. repeat split; reflexivity. Qed.

(** * Further properties of the script *)

(** ** How a run unfolds *)

Lemma check_required_cases environ vars :
  (forallb (env_set environ) vars = true /\ check_required environ vars = ret tt)
  \/ exists e, check_required environ vars = ([], Raise e).
Proof.
  induction vars as [|var vars IH]; [left; split; reflexivity|].
  cbn [forallb check_required]. destruct (env_set environ var); [exact IH|].
  right. eexists. reflexivity.
Qed.

Lemma fetch_cases w :
  (exists e, fetch w = ([pricing_get], Raise e))
  \/ (exists e, fetch w = ([pricing_get; servers_get], Raise e))
  \/ (exists price_lookup servers,
        fetch w = ([pricing_get; servers_get], Ok (price_lookup, servers))).
Proof.
  unfold fetch, hetzner_get.
  destruct (hetzner_pricing w) as [server_types|code|]; cbn;
    [|left; eexists; reflexivity..].
  right.
  destruct (hetzner_servers w) as [[|server servers]|code|]; cbn;
    [left; eexists; reflexivity | right; do 2 eexists; reflexivity
    | left; eexists; reflexivity..].
Qed.

Lemma aggregate_stage_cases price_lookup servers :
  (exists e, aggregate_stage price_lookup servers = ([], Raise e))
  \/ (exists t, aggregate_stage price_lookup servers = ([], Ok t)).
Proof.
  pose proof (aggregate_stage_trace price_lookup servers) as Ht.
  destruct (aggregate_stage price_lookup servers) as [tr [t|e]]; cbn in Ht; subst tr;
    [right | left]; eexists; reflexivity.
Qed.

Lemma derive_stage_cases t :
  (exists e, derive_stage t = ([], Raise e))
  \/ (exists rates, derive_stage t = ([], Ok rates)).
Proof.
  pose proof (derive_stage_trace t) as Ht.
  destruct (derive_stage t) as [tr [rates|e]]; cbn in Ht; subst tr;
    [right | left]; eexists; reflexivity.
Qed.

Lemma login_cases environ w :
  (exists e, login w (env_get environ "COROOT_EMAIL" "") (env_get environ "COROOT_PASSWORD" "")
             = ([login_call environ], Raise e))
  \/ login w (env_get environ "COROOT_EMAIL" "") (env_get environ "COROOT_PASSWORD" "")
     = ([login_call environ], Ok tt).
Proof.
  unfold login, coroot_request, login_call.
  destruct (coroot w "POST" ApiLogin _); cbn;
    first [right; reflexivity | left; eexists; reflexivity].
Qed.

Lemma update_pricing_cases w project rates :
  (exists e, update_pricing w project rates = ([update_call project rates], Raise e))
  \/ update_pricing w project rates = ([update_call project rates], Ok tt).
Proof.
  unfold update_pricing, coroot_request, update_call.
  destruct (coroot w "POST" (ApiCustomCloudPricing project) _); cbn;
    first [right; reflexivity | left; eexists; reflexivity].
Qed.

(** Every run is one of the eight cases of [run_spec]. *)
Lemma run_inv environ w : run_spec environ w (run environ w).1 (run environ w).2.
Proof.
  unfold run.
  destruct (check_required_cases environ REQUIRED) as [[Henv ->]|[e He]];
    [|rewrite He; cbn; apply StopConfig, He].
  cbn [section ret].
  destruct (fetch_cases w) as [[e Hf]|[[e Hf]|(price_lookup & servers & Hf)]];
    rewrite Hf; cbn [section fst snd];
    [eapply StopFetch; eauto .. |].
  destruct (aggregate_stage_cases price_lookup servers) as [[e Ha]|[t Ha]];
    rewrite Ha; cbn [section fst snd app];
    [eapply StopAggregate; eauto|].
  destruct (derive_stage_cases t) as [[e Hd]|[rates Hd]];
    rewrite Hd; cbn [section fst snd app];
    [eapply StopDerive; eauto|].
  destruct (login_cases environ w) as [[e Hl]|Hl];
    rewrite Hl; cbn [section fst snd app];
    [eapply StopAuthenticate; eauto|].
  destruct (discover w (env_get environ "COROOT_PROJECT" "")) as [td [project|e]] eqn:Hdisc;
    cbn [section fst snd app];
    [|eapply StopDiscover; eauto].
  destruct (update_pricing_cases w project rates) as [[e Hu]|Hu];
    rewrite Hu; cbn [section fst snd app].
  - eapply StopUpdate; eauto.
  - eapply Completed; eauto.
Qed.

Lemma check_required_first_missing environ before var after :
  forallb (env_set environ) before = true ->
  env_set environ var = false ->
  check_required environ (before ++ var :: after)
  = raise (SystemExit ("error: " ++ var ++ " not set")%string).
Proof.
  intros Hbefore Hvar. induction before as [|v before IH]; cbn [app check_required].
  - rewrite Hvar. reflexivity.
  - cbn [forallb] in Hbefore. apply andb_prop in Hbefore as [-> Hbefore]. exact (IH Hbefore).
Qed.

(** X1. When one of HETZNER_TOKEN, COROOT_EMAIL, COROOT_PASSWORD is unset or
    empty, the run exits in the configuration check with the message naming
    the first such variable in that order, and no request is sent. *)
Theorem missing_credential_stops_run environ w before var after :
  REQUIRED = before ++ var :: after ->
  forallb (env_set environ) before = true ->
  env_set environ var = false ->
  run environ w
  = ([], Failed Config (SystemExit ("error: " ++ var ++ " not set")%string)).
Proof.
  intros Hreq Hbefore Hvar. unfold run. rewrite Hreq.
  rewrite (check_required_first_missing _ _ _ _ Hbefore Hvar). reflexivity.
Qed.

Lemma missing_credential_stops_run_witness :
  run environ_without_email happy_world
  = ([], Failed Config (SystemExit "error: COROOT_EMAIL not set")).
Proof.
  apply (missing_credential_stops_run environ_without_email happy_world
           ["HETZNER_TOKEN"] "COROOT_EMAIL" ["COROOT_PASSWORD"]);
    [reflexivity | vm_compute; reflexivity | vm_compute; reflexivity].
Defined.

(** X2. With the configuration complete, a provider request that fails
    ends the run in section 1 with urllib's exception uncaught: after a
    failed pricing request the server list is not requested, and after a
    failed server-list request nothing else is sent. *)
Theorem provider_failure_stops_run environ w :
  forallb (env_set environ) REQUIRED = true ->
  (forall code, hetzner_pricing w = HzStatus code ->
     run environ w = ([pricing_get], Failed Fetch (HTTPError code)))
  /\ (hetzner_pricing w = HzUnreachable ->
      run environ w = ([pricing_get], Failed Fetch URLError))
  /\ (forall server_types code,
        hetzner_pricing w = HzBody server_types -> hetzner_servers w = HzStatus code ->
        run environ w = ([pricing_get; servers_get], Failed Fetch (HTTPError code)))
  /\ (forall server_types,
        hetzner_pricing w = HzBody server_types -> hetzner_servers w = HzUnreachable ->
        run environ w = ([pricing_get; servers_get], Failed Fetch URLError)).
Proof.
  intros Henv. unfold run. rewrite (check_required_ok _ _ Henv). cbn [section ret].
  unfold fetch, hetzner_get. repeat split.
  - intros code ->. reflexivity.
  - intros ->. reflexivity.
  - intros server_types code -> ->. reflexivity.
  - intros server_types -> ->. reflexivity.
Qed.

Lemma provider_failure_stops_run_witness :
  run sample_environ (provider_world (HzStatus 503) (HzBody [web1]))
  = ([pricing_get], Failed Fetch (HTTPError 503))
  /\ run sample_environ (provider_world (HzBody sample_catalog) HzUnreachable)
     = ([pricing_get; servers_get], Failed Fetch URLError).
Proof.
  split.
  - apply (proj1 (provider_failure_stops_run sample_environ
                    (provider_world (HzStatus 503) (HzBody [web1]))
                    ltac:(vm_compute; reflexivity)) 503 eq_refl).
  - apply (proj2 (proj2 (proj2 (provider_failure_stops_run sample_environ
                    (provider_world (HzBody sample_catalog) HzUnreachable)
                    ltac:(vm_compute; reflexivity)))) sample_catalog eq_refl eq_refl).
Defined.

(** ** The order of requests *)

Lemma list_projects_trace w : (list_projects w).1 = [projects_call].
Proof.
  unfold list_projects, coroot_request, found_projects.
  destruct (coroot w "GET" ApiProjects None) as [j| | | |]; cbn; try reflexivity.
  unfold py_or. destruct (truthy j); cbn; [|reflexivity].
  destruct j as [| | | | |[|p0 rest]|]; cbn; try reflexivity.
  destruct p0; cbn; try reflexivity.
  destruct (forallb is_dict rest); reflexivity.
Qed.

Lemma probe_default_trace w : (probe w CANDIDATES).1 = [overview_call].
Proof.
  unfold CANDIDATES, probe, coroot_request.
  destruct (coroot w "GET" (ApiOverview "default") None) as [j| | | |]; cbn;
    try reflexivity.
  destruct j; reflexivity.
Qed.

Lemma probe_default_value w project :
  (probe w CANDIDATES).2 = Ok project -> project = JStr "default".
Proof.
  unfold CANDIDATES, probe, coroot_request.
  destruct (coroot w "GET" (ApiOverview "default") None) as [j| | | |]; cbn;
    try discriminate.
  destruct j; cbn; congruence.
Qed.

(** The three shapes of a discovery: no request at all, the list request
    alone, or the list request followed by the overview probe. *)
Lemma discover_cases w COROOT_PROJECT :
  (COROOT_PROJECT <> EmptyString
   /\ discover w COROOT_PROJECT = ([], Ok (JStr COROOT_PROJECT)))
  \/ (COROOT_PROJECT = EmptyString
      /\ exists project, list_projects w = ([projects_call], Ok project)
                         /\ discover w COROOT_PROJECT = ([projects_call], Ok project))
  \/ (COROOT_PROJECT = EmptyString
      /\ exists e r, list_projects w = ([projects_call], Raise e)
                     /\ probe w CANDIDATES = ([overview_call], r)
                     /\ discover w COROOT_PROJECT = ([projects_call; overview_call], r)).
Proof.
  unfold discover. destruct (String.eqb_spec COROOT_PROJECT "") as [->|Hne].
  2:{ left. split; [exact Hne | reflexivity]. }
  right. pose proof (list_projects_trace w) as Ht.
  destruct (list_projects w) as [t [project|e]] eqn:Hl; cbn in Ht; subst t.
  - left. split; [reflexivity|]. exists project. split; reflexivity.
  - right. split; [reflexivity|].
    pose proof (list_projects_raises_Exception w e) as Hexc. rewrite Hl in Hexc.
    specialize (Hexc eq_refl). pose proof (probe_default_trace w) as Hp.
    destruct (probe w CANDIDATES) as [tp r] eqn:Hprobe. cbn in Hp. subst tp.
    exists e, r. repeat split. unfold try_except. rewrite Hexc. reflexivity.
Qed.

Lemma discover_trace_no_update w COROOT_PROJECT :
  forallb (fun ev => negb (is_update_call ev)) (discover w COROOT_PROJECT).1 = true.
Proof.
  destruct (discover_cases w COROOT_PROJECT)
    as [[_ ->]|[(_ & project & _ & ->)|(_ & e & r & _ & _ & ->)]]; reflexivity.
Qed.

Lemma no_update_before_discovery environ :
  forallb (fun ev => negb (is_update_call ev))
    [pricing_get; servers_get; login_call environ] = true.
Proof. reflexivity. Qed.

(** In a list that ends with its only marked element, a marked element
    can only be that last one. *)
Lemma marked_last {A} (marked : A -> bool) (l pre post : list A) (u ev : A) :
  forallb (fun x => negb (marked x)) l = true ->
  l ++ [u] = pre ++ ev :: post ->
  marked ev = true ->
  post = [] /\ pre = l /\ ev = u.
Proof.
  revert pre. induction l as [|x l IH]; intros pre Hl Heq Hev.
  - destruct pre as [|y pre]; cbn in Heq.
    + injection Heq as -> <-. auto.
    + injection Heq as _ Heq. destruct pre; discriminate.
  - cbn [forallb] in Hl. apply andb_prop in Hl as [Hx Hl].
    destruct pre as [|y pre]; cbn in Heq.
    + injection Heq as -> _. rewrite Hev in Hx. discriminate.
    + injection Heq as -> Heq. destruct (IH pre Hl Heq Hev) as (-> & -> & ->). auto.
Qed.

Lemma unmarked_not_in {A} (marked : A -> bool) (l pre post : list A) (ev : A) :
  forallb (fun x => negb (marked x)) l = true ->
  l = pre ++ ev :: post ->
  marked ev = true -> False.
Proof.
  intros Hl -> Hev. rewrite forallb_app in Hl. apply andb_prop in Hl as [_ Hl].
  cbn in Hl. rewrite Hev in Hl. discriminate.
Qed.

(** What sections 1 to 3 having succeeded says about the provider's
    answers. *)
Lemma sections_1_to_3_inv w price_lookup servers t rates :
  fetch w = ([pricing_get; servers_get], Ok (price_lookup, servers)) ->
  aggregate_stage price_lookup servers = ([], Ok t) ->
  derive_stage t = ([], Ok rates) ->
  exists server_types,
    hetzner_pricing w = HzBody server_types
    /\ hetzner_servers w = HzBody servers
    /\ derive_stage (aggregate (price_lookup_of server_types) servers) = ret rates.
Proof.
  intros Hf Ha Hd. unfold fetch, hetzner_get in Hf.
  destruct (hetzner_pricing w) as [server_types| |]; cbn in Hf; try discriminate.
  destruct (hetzner_servers w) as [[|s l]| |]; cbn in Hf; try discriminate.
  injection Hf as <- <-. exists server_types. repeat split.
  unfold aggregate_stage in Ha.
  destruct (Z.eqb _ 0); [discriminate|]. injection Ha as <-. exact Hd.
Qed.

(** X3. Coroot is contacted only after both provider requests succeeded,
    the fleet was aggregated and the rates were derived with the assertion
    passed; the first Coroot request is the login with the configured
    credentials. *)
Theorem coroot_contacted_after_derivation environ w ev :
  In ev (run environ w).1 ->
  is_coroot_call ev = true ->
  exists server_types servers rates rest,
    hetzner_pricing w = HzBody server_types
    /\ hetzner_servers w = HzBody servers
    /\ derive_stage (aggregate (price_lookup_of server_types) servers) = ret rates
    /\ (run environ w).1 = pricing_get :: servers_get :: login_call environ :: rest.
Proof.
  intros Hin Hev. pose proof (run_inv environ w) as Hrun.
  destruct (run environ w) as [trace o]. cbn [fst snd] in *.
  pose proof (sections_1_to_3_inv w) as Hstages.
  inversion Hrun as [e Hc Ht|t1 e Hc Hf Ht1 Ht|pl sv e Hc Hf Ha Ht|pl sv t e Hc Hf Ha Hd Ht
                    |pl sv t rates e Hc Hf Ha Hd Hl Ht
                    |pl sv t rates td e Hc Hf Ha Hd Hl Hdisc Ht
                    |pl sv t rates td project e Hc Hf Ha Hd Hl Hdisc Hu Ht
                    |pl sv t rates td project Hc Hf Ha Hd Hl Hdisc Hu Ht]; subst trace o.
  - destruct Hin.
  - exfalso. destruct Ht1 as [-> | ->]; cbn in Hin; intuition (subst; discriminate).
  - exfalso. cbn in Hin. intuition (subst; discriminate).
  - exfalso. cbn in Hin. intuition (subst; discriminate).
  - destruct (Hstages _ _ _ _ Hf Ha Hd) as (server_types & Hp & Hs & Hder).
    exists server_types, sv, rates, []. auto.
  - destruct (Hstages _ _ _ _ Hf Ha Hd) as (server_types & Hp & Hs & Hder).
    exists server_types, sv, rates, td. auto.
  - destruct (Hstages _ _ _ _ Hf Ha Hd) as (server_types & Hp & Hs & Hder).
    exists server_types, sv, rates, (td ++ [update_call project rates]). auto.
  - destruct (Hstages _ _ _ _ Hf Ha Hd) as (server_types & Hp & Hs & Hder).
    exists server_types, sv, rates, (td ++ [update_call project rates]). auto.
Qed.

Lemma coroot_contacted_after_derivation_witness :
  exists rest,
    (run sample_environ happy_world).1
    = pricing_get :: servers_get :: login_call sample_environ :: rest.
Proof.
  destruct (coroot_contacted_after_derivation sample_environ happy_world
              (login_call sample_environ))
    as (server_types & servers & rates & rest & _ & _ & _ & Htrace).
  - vm_compute. right. right. left. reflexivity.
  - reflexivity.
  - exists rest. exact Htrace.
Defined.

(** X4. A pricing update is only ever the last request of a run: nothing
    follows it, no other update precedes it, the login precedes it, and the
    run then either completes or fails in section 6. *)
Theorem update_request_is_last environ w pre ev post :
  (run environ w).1 = pre ++ ev :: post ->
  is_update_call ev = true ->
  post = []
  /\ forallb (fun ev' => negb (is_update_call ev')) pre = true
  /\ In (login_call environ) pre
  /\ ((run environ w).2 = Done \/ exists e, (run environ w).2 = Failed Update e).
Proof.
  intros Htrace Hev. pose proof (run_inv environ w) as Hrun.
  destruct (run environ w) as [trace o]. cbn [fst snd] in *. revert Htrace.
  pose proof (discover_trace_no_update w (env_get environ "COROOT_PROJECT" "")) as Hno.
  inversion Hrun as [e Hc|t1 e Hc Hf Ht1|pl sv e Hc Hf Ha|pl sv t e Hc Hf Ha Hd
                    |pl sv t rates e Hc Hf Ha Hd Hl
                    |pl sv t rates td e Hc Hf Ha Hd Hl Hdisc
                    |pl sv t rates td project e Hc Hf Ha Hd Hl Hdisc Hu
                    |pl sv t rates td project Hc Hf Ha Hd Hl Hdisc Hu];
    subst; intros Htrace.
  - destruct pre; discriminate.
  - exfalso. destruct Ht1 as [Ht1 | Ht1]; rewrite Ht1 in Htrace;
      eapply (unmarked_not_in is_update_call); [| exact Htrace | exact Hev | | exact Htrace | exact Hev];
      reflexivity.
  - exfalso. eapply (unmarked_not_in is_update_call); [| exact Htrace | exact Hev].
    reflexivity.
  - exfalso. eapply (unmarked_not_in is_update_call); [| exact Htrace | exact Hev].
    reflexivity.
  - exfalso. eapply (unmarked_not_in is_update_call); [| exact Htrace | exact Hev].
    reflexivity.
  - exfalso. eapply (unmarked_not_in is_update_call); [| exact Htrace | exact Hev].
    rewrite forallb_app, no_update_before_discovery. rewrite Hdisc in Hno. exact Hno.
  - rewrite Hdisc in Hno. cbn [fst] in Hno. rewrite app_assoc in Htrace.
    destruct (marked_last is_update_call ([pricing_get; servers_get; login_call environ] ++ td)
                pre post (update_call project rates) ev) as (-> & -> & ->);
      [rewrite forallb_app, no_update_before_discovery; exact Hno | exact Htrace | exact Hev |].
    repeat split.
    + rewrite forallb_app, no_update_before_discovery. exact Hno.
    + apply in_or_app. left. cbn. auto.
    + right. eexists. reflexivity.
  - rewrite Hdisc in Hno. cbn [fst] in Hno. rewrite app_assoc in Htrace.
    destruct (marked_last is_update_call ([pricing_get; servers_get; login_call environ] ++ td)
                pre post (update_call project rates) ev) as (-> & -> & ->);
      [rewrite forallb_app, no_update_before_discovery; exact Hno | exact Htrace | exact Hev |].
    repeat split.
    + rewrite forallb_app, no_update_before_discovery. exact Hno.
    + apply in_or_app. left. cbn. auto.
    + left. reflexivity.
Qed.

Lemma update_request_is_last_witness :
  In (login_call sample_environ)
     [pricing_get; servers_get; login_call sample_environ; projects_call]
  /\ ((run sample_environ happy_world).2 = Done
      \/ exists e, (run sample_environ happy_world).2 = Failed Update e).
Proof.
  apply (update_request_is_last sample_environ happy_world
           [pricing_get; servers_get; login_call sample_environ; projects_call]
           (update_call (JStr "prod")
              (0.0042912571132953962%float, 0.0004877047766856355%float))
           []);
    [vm_compute; reflexivity | reflexivity].
Defined.

(** X5. A run that completes did exactly this: both provider requests, the
    login, the requests of discovery, and one update that posts the rates
    derived from the aggregated fleet to the project discovery resolved. *)
Theorem completed_run_posts_derived_rates environ w :
  (run environ w).2 = Done ->
  exists server_types servers rates td project,
    hetzner_pricing w = HzBody server_types
    /\ hetzner_servers w = HzBody servers
    /\ derive_stage (aggregate (price_lookup_of server_types) servers) = ret rates
    /\ discover w (env_get environ "COROOT_PROJECT" "") = (td, Ok project)
    /\ (run environ w).1
       = [pricing_get; servers_get; login_call environ] ++ td ++ [update_call project rates].
Proof.
  intros Hdone. pose proof (run_inv environ w) as Hrun.
  destruct (run environ w) as [trace o]. cbn [fst snd] in *. subst o.
  inversion Hrun as [| | | | | | |pl sv t rates td project Hc Hf Ha Hd Hl Hdisc Hu]; subst.
  destruct (sections_1_to_3_inv _ _ _ _ _ Hf Ha Hd) as (server_types & Hp & Hs & Hder).
  exists server_types, sv, rates, td, project. auto.
Qed.

Lemma completed_run_posts_derived_rates_witness :
  exists server_types servers rates td project,
    hetzner_pricing happy_world = HzBody server_types
    /\ hetzner_servers happy_world = HzBody servers
    /\ derive_stage (aggregate (price_lookup_of server_types) servers) = ret rates
    /\ discover happy_world (env_get sample_environ "COROOT_PROJECT" "") = (td, Ok project)
    /\ (run sample_environ happy_world).1
       = [pricing_get; servers_get; login_call sample_environ] ++ td
         ++ [update_call project rates].
Proof.
  apply (completed_run_posts_derived_rates sample_environ happy_world).
  vm_compute. reflexivity.
Defined.

(** X6. When the final update is answered with an error status, the run
    does not complete: once the update request has been sent, the run ends
    in section 6 with the [RuntimeError] carrying that status, the method,
    the path and the response body. *)
Theorem update_rejection_fails_run environ w code body_text :
  (forall project body,
     coroot w "POST" (ApiCustomCloudPricing project) body = RespStatus code body_text) ->
  (run environ w).2 <> Done
  /\ (forall ev, In ev (run environ w).1 -> is_update_call ev = true ->
      exists project rates,
        ev = update_call project rates
        /\ (run environ w).2
           = Failed Update
               (RuntimeError code "POST" (ApiCustomCloudPricing project) body_text)).
Proof.
  intros Hrej.
  assert (Hupd : forall project rates,
            update_pricing w project rates
            = ([update_call project rates],
               Raise (RuntimeError code "POST" (ApiCustomCloudPricing project) body_text))).
  { intros project rates. unfold update_pricing, coroot_request. rewrite Hrej. reflexivity. }
  pose proof (run_inv environ w) as Hrun.
  pose proof (discover_trace_no_update w (env_get environ "COROOT_PROJECT" "")) as Hno.
  destruct (run environ w) as [trace o]. cbn [fst snd] in *.
  inversion Hrun as [e Hc|t1 e Hc Hf Ht1|pl sv e Hc Hf Ha|pl sv t e Hc Hf Ha Hd
                    |pl sv t rates e Hc Hf Ha Hd Hl
                    |pl sv t rates td e Hc Hf Ha Hd Hl Hdisc
                    |pl sv t rates td project e Hc Hf Ha Hd Hl Hdisc Hu
                    |pl sv t rates td project Hc Hf Ha Hd Hl Hdisc Hu];
    subst; (split; [discriminate || idtac | intros ev Hin Hev]).
  - destruct Hin.
  - exfalso. destruct Ht1 as [-> | ->]; cbn in Hin; intuition (subst; discriminate).
  - exfalso. cbn in Hin. intuition (subst; discriminate).
  - exfalso. cbn in Hin. intuition (subst; discriminate).
  - exfalso. cbn in Hin. intuition (subst; discriminate).
  - exfalso. rewrite Hdisc in Hno. cbn [fst] in Hno.
    apply in_app_or in Hin as [Hin|Hin]; [cbn in Hin; intuition (subst; discriminate)|].
    rewrite forallb_forall in Hno. specialize (Hno ev Hin). rewrite Hev in Hno. discriminate.
  - rewrite Hdisc in Hno. cbn [fst] in Hno. rewrite Hupd in Hu. injection Hu as <-.
    apply in_app_or in Hin as [Hin|Hin]; [cbn in Hin; exfalso; intuition (subst; discriminate)|].
    apply in_app_or in Hin as [Hin|Hin].
    + exfalso. rewrite forallb_forall in Hno. specialize (Hno ev Hin).
      rewrite Hev in Hno. discriminate.
    + destruct Hin as [<-|[]]. exists project, rates. split; reflexivity.
  - rewrite Hupd in Hu. discriminate.
  - rewrite Hupd in Hu. discriminate.
Qed.

Lemma update_rejection_fails_run_witness :
  (run sample_environ rejecting_world).2
  = Failed Update (RuntimeError 403 "POST" (ApiCustomCloudPricing (JStr "prod")) "Forbidden").
Proof.
  destruct (proj2 (update_rejection_fails_run sample_environ rejecting_world 403 "Forbidden"
                     (fun _ _ => eq_refl))
              (update_call (JStr "prod")
                 (0.0042912571132953962%float, 0.0004877047766856355%float)))
    as (project & rates & Hev & Hout).
  - vm_compute. do 4 right. left. reflexivity.
  - reflexivity.
  - rewrite Hout. injection Hev as <- _ _. reflexivity.
Defined.

(** ** Discovery *)

(** X7. With a non-empty COROOT_PROJECT configured, discovery sends nothing
    and keeps that name: no run sends a project-list or overview request,
    and an update, if sent, goes to the configured project. *)
Theorem configured_project_skips_discovery environ w project :
  environ !! "COROOT_PROJECT" = Some project ->
  project <> EmptyString ->
  discover w (env_get environ "COROOT_PROJECT" "") = ([], Ok (JStr project))
  /\ Forall (fun ev => is_discovery_call ev = false) (run environ w).1
  /\ (forall ev, In ev (run environ w).1 -> is_update_call ev = true ->
      exists rates, ev = update_call (JStr project) rates).
Proof.
  intros Hcfg Hne.
  assert (Hget : env_get environ "COROOT_PROJECT" "" = project)
    by (unfold env_get; rewrite Hcfg; reflexivity).
  assert (Hdiscover : discover w (env_get environ "COROOT_PROJECT" "")
                      = ([], Ok (JStr project))).
  { rewrite Hget. unfold discover.
    destruct (String.eqb_spec project ""); [contradiction | reflexivity]. }
  split; [exact Hdiscover|].
  pose proof (run_inv environ w) as Hrun.
  destruct (run environ w) as [trace o]. cbn [fst snd] in *.
  inversion Hrun as [e Hc|t1 e Hc Hf Ht1|pl sv e Hc Hf Ha|pl sv t e Hc Hf Ha Hd
                    |pl sv t rates e Hc Hf Ha Hd Hl
                    |pl sv t rates td e Hc Hf Ha Hd Hl Hdisc
                    |pl sv t rates td pr e Hc Hf Ha Hd Hl Hdisc Hu
                    |pl sv t rates td pr Hc Hf Ha Hd Hl Hdisc Hu];
    subst; try (rewrite Hdiscover in Hdisc; injection Hdisc as <- <-);
    try (rewrite Hdiscover in Hdisc; discriminate).
  - split; [constructor | intros ev []].
  - destruct Ht1 as [-> | ->]; (split; [repeat constructor|]);
      intros ev Hin Hev; cbn in Hin; exfalso; intuition (subst; discriminate).
  - split; [repeat constructor|].
    intros ev Hin Hev; cbn in Hin; exfalso; intuition (subst; discriminate).
  - split; [repeat constructor|].
    intros ev Hin Hev; cbn in Hin; exfalso; intuition (subst; discriminate).
  - split; [repeat constructor|].
    intros ev Hin Hev; cbn in Hin; exfalso; intuition (subst; discriminate).
  - split; [repeat constructor|].
    intros ev Hin Hev. cbn in Hin.
    destruct Hin as [<-|[<-|[<-|[<-|[]]]]]; try discriminate. exists rates. reflexivity.
  - split; [repeat constructor|].
    intros ev Hin Hev. cbn in Hin.
    destruct Hin as [<-|[<-|[<-|[<-|[]]]]]; try discriminate. exists rates. reflexivity.
Qed.

Lemma configured_project_skips_discovery_witness :
  discover happy_world (env_get environ_with_project "COROOT_PROJECT" "")
  = ([], Ok (JStr "staging")).
Proof.
  apply (configured_project_skips_discovery environ_with_project happy_world "staging");
    [vm_compute; reflexivity | discriminate].
Defined.

(** X8. Automatic discovery sends the project-list request first and at
    most one more request, the overview of "default".  If the list request
    is the only one, discovery succeeded; if the overview was probed, a
    successful discovery resolved to "default". *)
Theorem discovery_requests w :
  ((discover w "").1 = [projects_call]
   /\ exists project, (discover w "").2 = Ok project
                      /\ list_projects w = ([projects_call], Ok project))
  \/ ((discover w "").1 = [projects_call; overview_call]
      /\ (exists e, (list_projects w).2 = Raise e)
      /\ forall project, (discover w "").2 = Ok project -> project = JStr "default").
Proof.
  destruct (discover_cases w "")
    as [[Hne _]|[(_ & project & Hl & ->)|(_ & e & r & Hl & Hp & ->)]].
  - contradiction.
  - left. cbn [fst snd]. eauto.
  - right. cbn [fst snd]. rewrite Hl. split; [reflexivity|]. split; [cbn; eauto|].
    intros project ->. apply (probe_default_value w). rewrite Hp. reflexivity.
Qed.

Lemma probe_default_unhandled w :
  (coroot w "GET" (ApiOverview "default") None = RespNone ->
   probe w CANDIDATES = ([overview_call], Raise URLError))
  /\ (coroot w "GET" (ApiOverview "default") None = RespGarbage ->
      probe w CANDIDATES = ([overview_call], Raise JSONDecodeError)).
Proof.
  unfold CANDIDATES, probe, coroot_request. split; intros ->; reflexivity.
Qed.

(** X9. The fallback catches only the [RuntimeError] of an error status.
    When the overview probe gets no HTTP response, or a success status with
    a body that is not JSON, that exception leaves discovery uncaught
    instead of the "could not auto-discover" exit. *)
Theorem probe_failure_propagates w e :
  (list_projects w).2 = Raise e ->
  (coroot w "GET" (ApiOverview "default") None = RespNone ->
   discover w "" = ([projects_call; overview_call], Raise URLError))
  /\ (coroot w "GET" (ApiOverview "default") None = RespGarbage ->
      discover w "" = ([projects_call; overview_call], Raise JSONDecodeError)).
Proof.
  intros Hraise. rewrite (discover_fallback w e Hraise), list_projects_trace.
  destruct (probe_default_unhandled w) as [Hnone Hgarbage].
  split; intros Hresp; [rewrite (Hnone Hresp) | rewrite (Hgarbage Hresp)]; reflexivity.
Qed.

Lemma probe_failure_propagates_witness :
  discover (discovery_world RespNone RespNone) ""
  = ([projects_call; overview_call], Raise URLError)
  /\ discover (discovery_world (RespJSON (JArr [])) RespGarbage) ""
     = ([projects_call; overview_call], Raise JSONDecodeError).
Proof.
  split.
  - apply (proj1 (probe_failure_propagates (discovery_world RespNone RespNone)
                    URLError eq_refl) eq_refl).
  - apply (proj2 (probe_failure_propagates (discovery_world (RespJSON (JArr [])) RespGarbage)
                    (ValueError "empty projects list") eq_refl) eq_refl).
Defined.

(** X10. A project list with any entry that is not an object is discarded
    as a whole, whatever its first entry says: the [try] body raises
    [AttributeError] and the overview probe alone decides the outcome. *)
Theorem non_dict_entry_discards_list w projects :
  coroot w "GET" ApiProjects None = RespJSON (JArr projects) ->
  forallb is_dict projects = false ->
  list_projects w = ([projects_call], Raise AttributeError)
  /\ discover w "" = ([projects_call; overview_call], (probe w CANDIDATES).2).
Proof.
  intros Hresp Hmixed.
  assert (Hl : list_projects w = ([projects_call], Raise AttributeError)).
  { unfold list_projects, coroot_request, found_projects. rewrite Hresp.
    destruct projects as [|p0 rest]; [discriminate|]. cbn.
    destruct p0; cbn; try reflexivity. cbn in Hmixed. rewrite Hmixed. reflexivity. }
  split; [exact Hl|].
  rewrite (discover_fallback w AttributeError) by (rewrite Hl; reflexivity).
  rewrite Hl. pose proof (probe_default_trace w) as Hp.
  destruct (probe w CANDIDATES) as [tp r]. cbn in Hp. subst tp. reflexivity.
Qed.

Lemma non_dict_entry_discards_list_witness :
  discover (discovery_world (RespJSON (JArr mixed_projects)) (RespJSON (JBool true))) ""
  = ([projects_call; overview_call], Ok (JStr "default")).
Proof.
  apply (proj2 (non_dict_entry_discards_list
                  (discovery_world (RespJSON (JArr mixed_projects)) (RespJSON (JBool true)))
                  mixed_projects eq_refl eq_refl)).
Defined.

(** A login that raises ends the run in section 4, whatever it raises. *)
Lemma login_raise_aborts environ w e :
  login w (env_get environ "COROOT_EMAIL" "") (env_get environ "COROOT_PASSWORD" "")
  = ([login_call environ], Raise e) ->
  Forall (fun ev => is_discovery_or_update_call ev = false) (run environ w).1
  /\ (run environ w).2 <> Done
  /\ (In (login_call environ) (run environ w).1 ->
      (run environ w).2 = Failed Authenticate e).
Proof.
  intros Hl. pose proof (run_inv environ w) as Hrun.
  destruct (run environ w) as [trace o]. cbn [fst snd] in *.
  inversion Hrun as [e' Hc|t1 e' Hc Hf Ht1|pl sv e' Hc Hf Ha|pl sv t e' Hc Hf Ha Hd
                    |pl sv t rates e' Hc Hf Ha Hd Hl'
                    |pl sv t rates td e' Hc Hf Ha Hd Hl' Hdisc
                    |pl sv t rates td project e' Hc Hf Ha Hd Hl' Hdisc Hu
                    |pl sv t rates td project Hc Hf Ha Hd Hl' Hdisc Hu];
    subst; try (rewrite Hl in Hl'; discriminate).
  - repeat split; [constructor | discriminate | intros []].
  - destruct Ht1 as [-> | ->]; (repeat split; [repeat constructor | discriminate |]);
      intros Hin; cbn in Hin; exfalso; intuition discriminate.
  - repeat split; [repeat constructor | discriminate |].
    intros Hin; cbn in Hin; exfalso; intuition discriminate.
  - repeat split; [repeat constructor | discriminate |].
    intros Hin; cbn in Hin; exfalso; intuition discriminate.
  - repeat split; [repeat constructor | discriminate |]. intros _.
    rewrite Hl in Hl'. injection Hl' as <-. reflexivity.
Qed.

(** X11. A login that fails other than by an error status stops the run
    before discovery all the same: with no HTTP response the run ends in
    section 4 with [URLError], with a success status whose body is not JSON
    it ends there with [JSONDecodeError]; in both cases no project-list,
    overview or update request is sent. *)
Theorem login_transport_failure_aborts environ w :
  ((forall body, coroot w "POST" ApiLogin body = RespNone) ->
   Forall (fun ev => is_discovery_or_update_call ev = false) (run environ w).1
   /\ (run environ w).2 <> Done
   /\ (In (login_call environ) (run environ w).1 ->
       (run environ w).2 = Failed Authenticate URLError))
  /\ ((forall body, coroot w "POST" ApiLogin body = RespGarbage) ->
      Forall (fun ev => is_discovery_or_update_call ev = false) (run environ w).1
      /\ (run environ w).2 <> Done
      /\ (In (login_call environ) (run environ w).1 ->
          (run environ w).2 = Failed Authenticate JSONDecodeError)).
Proof.
  split; intros Hlogin; apply login_raise_aborts;
    unfold login, coroot_request, login_call; rewrite Hlogin; reflexivity.
Qed.

Lemma login_transport_failure_aborts_witness :
  (run sample_environ (sample_world [web1; db1] RespGarbage RespBlank RespBlank)).2
  = Failed Authenticate JSONDecodeError.
Proof.
  apply (proj2 (login_transport_failure_aborts sample_environ
                  (sample_world [web1; db1] RespGarbage RespBlank RespBlank))
           (fun _ => eq_refl)).
  vm_compute. right. right. left. reflexivity.
Defined.

(** ** The price catalog *)

Lemma dict_of_snoc {V} (items : list (string * V)) k v :
  dict_of (items ++ [(k, v)]) = <[ k := v ]> (dict_of items).
Proof. unfold dict_of. rewrite foldl_app. reflexivity. Qed.

Lemma last_match_snoc {V} key (items : list (string * V)) k v :
  last_match key (items ++ [(k, v)])
  = if String.eqb k key then Some v else last_match key items.
Proof.
  induction items as [|[k' v'] items IH]; cbn [app last_match]; [reflexivity|].
  rewrite IH. destruct (String.eqb k key); [reflexivity|].
  destruct (last_match key items); reflexivity.
Qed.

Lemma dict_of_lookup {V} (items : list (string * V)) key :
  dict_of items !! key = last_match key items.
Proof.
  induction items as [|[k v] items IH] using rev_ind; [reflexivity|].
  rewrite dict_of_snoc, last_match_snoc.
  destruct (String.eqb_spec k key) as [->|Hne].
  - apply lookup_insert_eq.
  - rewrite lookup_insert_ne by exact Hne. exact IH.
Qed.

Lemma last_match_map {V W} (f : V -> W) key (items : list (string * V)) :
  last_match key (map (fun kv => (kv.1, f kv.2)) items) = f <$> last_match key items.
Proof.
  induction items as [|[k v] items IH]; [reflexivity|]. cbn [map last_match fst snd].
  rewrite IH. destruct (last_match key items); cbn; [reflexivity|].
  destruct (String.eqb k key); reflexivity.
Qed.

Lemma last_match_In {V} key (items : list (string * V)) v :
  last_match key items = Some v -> In (key, v) items.
Proof.
  induction items as [|[k v'] items IH]; [discriminate|]. cbn [last_match].
  destruct (last_match key items) as [v''|].
  - intros [= <-]. right. apply IH. reflexivity.
  - destruct (String.eqb_spec k key) as [->|]; [|discriminate].
    intros [= <-]. left. reflexivity.
Qed.

Lemma last_match_NoDup {V} key (items : list (string * V)) v :
  NoDup (map fst items) -> In (key, v) items -> last_match key items = Some v.
Proof.
  induction items as [|[k v'] items IH]; [intros _ []|].
  cbn [map fst]. intros Hnd Hin. apply NoDup_cons in Hnd as [Hk Hnd]. cbn [last_match].
  destruct Hin as [[= -> ->]|Hin].
  - destruct (last_match key items) as [v''|] eqn:Hm.
    + exfalso. apply Hk. apply last_match_In in Hm. apply list_elem_of_In.
      apply (in_map fst) in Hm. exact Hm.
    + rewrite String.eqb_refl. reflexivity.
  - rewrite (IH Hnd Hin). reflexivity.
Qed.

(** The catalog as the pairs of a type name and its price list. *)
Lemma price_lookup_of_lookup server_types key :
  price_lookup_of server_types !! key
  = dict_of <$> last_match key (map (fun st => (st_name st, st_prices st)) server_types).
Proof.
  unfold price_lookup_of. rewrite dict_of_lookup.
  rewrite <- (last_match_map dict_of), map_map. reflexivity.
Qed.

Lemma lookup_prices_last_match server_types server :
  lookup_prices (price_lookup_of server_types) server
  = match last_match (stype server)
            (map (fun st => (st_name st, st_prices st)) server_types) with
    | Some prices => last_match (location server) prices
    | None => None
    end.
Proof.
  unfold lookup_prices. rewrite price_lookup_of_lookup.
  destruct (last_match (stype server) _) as [prices|]; cbn.
  - apply dict_of_lookup.
  - apply lookup_empty.
Qed.

Lemma lookup_prices_sound server_types server p :
  lookup_prices (price_lookup_of server_types) server = Some p ->
  exists st, In st server_types
             /\ st_name st = stype server
             /\ In (location server, p) (st_prices st).
Proof.
  rewrite lookup_prices_last_match.
  destruct (last_match (stype server) _) as [prices|] eqn:Hst; [|discriminate].
  intros Hp. apply last_match_In in Hst. apply in_map_iff in Hst as (st & [= Hn Hpr] & Hin).
  exists st. subst prices. repeat split; [exact Hin | exact Hn |].
  apply last_match_In, Hp.
Qed.

(** X12. The catalog built by the dict comprehensions of lines 85-94 prices
    a server by the last entry of the pricing list that carries its type
    name, and within that entry by the last price listed for its location:
    earlier entries of the same type name are shadowed as a whole. *)
Theorem catalog_lookup_last_wins server_types server :
  lookup_prices (price_lookup_of server_types) server
  = match last_match (stype server)
            (map (fun st => (st_name st, st_prices st)) server_types) with
    | Some prices => last_match (location server) prices
    | None => None
    end.
Proof.
  unfold lookup_prices, price_lookup_of. rewrite dict_of_lookup.
  replace (map (fun st => (st_name st, dict_of (st_prices st))) server_types)
    with (map (fun kv : string * list (string * prices_t) => (kv.1, dict_of kv.2))
            (map (fun st => (st_name st, st_prices st)) server_types))
    by (rewrite map_map; reflexivity).
  rewrite last_match_map.
  destruct (last_match (stype server) _) as [prices|]; cbn.
  - apply dict_of_lookup.
  - apply lookup_empty.
Qed.

(** X13. A price the loop finds for a server is one the pricing list gives
    for its type and location; and when type names are not repeated in the
    pricing list nor locations within an entry, every listed price is
    found. *)
Theorem catalog_lookup_sound_complete server_types server p :
  (lookup_prices (price_lookup_of server_types) server = Some p ->
   exists st, In st server_types
              /\ st_name st = stype server
              /\ In (location server, p) (st_prices st))
  /\ (NoDup (map st_name server_types) ->
      forall st, In st server_types ->
                 st_name st = stype server ->
                 NoDup (map fst (st_prices st)) ->
                 In (location server, p) (st_prices st) ->
                 lookup_prices (price_lookup_of server_types) server = Some p).
Proof.
  split; [apply lookup_prices_sound|].
  - intros Hnd st Hin Hname Hndp Hp. rewrite lookup_prices_last_match.
    rewrite (last_match_NoDup (stype server) _ (st_prices st)).
    + apply last_match_NoDup; assumption.
    + rewrite map_map. exact Hnd.
    + apply in_map_iff. exists st. split; [rewrite Hname; reflexivity | exact Hin].
Qed.

Lemma catalog_lookup_sound_complete_witness :
  lookup_prices (price_lookup_of sample_catalog) db1 = Some (Prices 0.025 15.59).
Proof.
  apply (proj2 (catalog_lookup_sound_complete sample_catalog db1 (Prices 0.025 15.59)))
    with (st := ServerType "cpx31" [("fsn1", Prices 0.025 15.59)]).
  - repeat constructor; cbn; intros H; apply list_elem_of_In in H; cbn in H;
      intuition discriminate.
  - right. left. reflexivity.
  - reflexivity.
  - repeat constructor. cbn. intros H. apply list_elem_of_In in H. destruct H.
  - left. reflexivity.
Defined.

Lemma catalog_lookup_last_wins_witness :
  lookup_prices (price_lookup_of repeated_catalog) (Server "web-2" "cx22" 2 4 "nbg1") = None
  /\ lookup_prices (price_lookup_of repeated_catalog) web1 = Some (Prices 0.0074 4.35).
Proof. rewrite !catalog_lookup_last_wins. split; reflexivity. Defined.

(** ** Core counts *)

Lemma priced_vcpus_cons price_lookup server servers :
  priced_vcpus price_lookup (server :: servers)
  = match lookup_prices price_lookup server with
    | Some _ => vcpus server + priced_vcpus price_lookup servers
    | None => priced_vcpus price_lookup servers
    end.
Proof.
  unfold priced_vcpus, priced_subset. cbn [omap list_omap].
  destruct (lookup_prices price_lookup server); reflexivity.
Qed.

Lemma total_vcpus_foldl priced : forall acc,
  total_vcpus (foldl (fun acc ps => add_server acc ps.1 ps.2) acc priced)
  = total_vcpus acc + foldr Z.add 0 (map (fun ps : prices_t * server_t => vcpus ps.2) priced).
Proof.
  induction priced as [|ps priced IH]; intros acc; cbn [foldl map foldr]; [lia|].
  rewrite IH. cbn [add_server total_vcpus]. lia.
Qed.

Lemma total_vcpus_aggregate price_lookup servers :
  total_vcpus (aggregate price_lookup servers) = priced_vcpus price_lookup servers.
Proof.
  unfold aggregate. rewrite foldl_loop_body_priced, total_vcpus_foldl. reflexivity.
Qed.

Lemma aggregate_stage_verdict price_lookup servers :
  (priced_vcpus price_lookup servers = 0
   /\ aggregate_stage price_lookup servers = raise NoPriceableServers)
  \/ (priced_vcpus price_lookup servers <> 0
      /\ aggregate_stage price_lookup servers = ret (aggregate price_lookup servers)).
Proof.
  unfold aggregate_stage. rewrite total_vcpus_aggregate.
  destruct (Z.eqb_spec (priced_vcpus price_lookup servers) 0); [left | right]; auto.
Qed.

Lemma total_vcpus_is_priced_sum_aux price_lookup servers :
  (aggregate_stage price_lookup servers = raise NoPriceableServers
   <-> priced_vcpus price_lookup servers = 0)
  /\ (aggregate_stage price_lookup servers = ret (aggregate price_lookup servers)
      <-> priced_vcpus price_lookup servers <> 0).
Proof.
  destruct (aggregate_stage_verdict price_lookup servers) as [[Hz ->]|[Hnz ->]];
    split; split; intros H; try reflexivity; try assumption; try discriminate;
    contradiction.
Qed.

(** X14. [total_vcpus] after the loop is exactly the sum of the cores of
    the servers that have a price entry, and section 2 ends with the
    "could not resolve pricing" exit exactly when that sum is zero; in every
    other case it hands the accumulated totals on. *)
Theorem total_vcpus_is_priced_sum price_lookup servers :
  total_vcpus (aggregate price_lookup servers) = priced_vcpus price_lookup servers
  /\ (aggregate_stage price_lookup servers = raise NoPriceableServers
      <-> priced_vcpus price_lookup servers = 0)
  /\ (aggregate_stage price_lookup servers = ret (aggregate price_lookup servers)
      <-> priced_vcpus price_lookup servers <> 0).
Proof.
  split; [apply total_vcpus_aggregate | apply total_vcpus_is_priced_sum_aux].
Qed.

Lemma priced_vcpus_Permutation price_lookup servers servers' :
  Permutation servers servers' ->
  priced_vcpus price_lookup servers = priced_vcpus price_lookup servers'.
Proof.
  induction 1 as [|s l l' _ IH|s s' l|l l' l'' _ IH1 _ IH2].
  - reflexivity.
  - rewrite !priced_vcpus_cons, IH. reflexivity.
  - rewrite !priced_vcpus_cons.
    destruct (lookup_prices price_lookup s), (lookup_prices price_lookup s'); lia.
  - congruence.
Qed.

(** X15. The order of the server list does not matter to the core count:
    two lists that are permutations of each other accumulate the same
    [total_vcpus], and section 2 rejects one exactly when it rejects the
    other. *)
Theorem total_vcpus_order_independent price_lookup servers servers' :
  Permutation servers servers' ->
  total_vcpus (aggregate price_lookup servers)
  = total_vcpus (aggregate price_lookup servers')
  /\ (aggregate_stage price_lookup servers = raise NoPriceableServers
      <-> aggregate_stage price_lookup servers' = raise NoPriceableServers).
Proof.
  intros Hperm. pose proof (priced_vcpus_Permutation price_lookup _ _ Hperm) as Heq.
  split; [rewrite !total_vcpus_aggregate; exact Heq|].
  destruct (total_vcpus_is_priced_sum_aux price_lookup servers) as [H1 _].
  destruct (total_vcpus_is_priced_sum_aux price_lookup servers') as [H2 _].
  rewrite H1, H2, Heq. reflexivity.
Qed.

Lemma total_vcpus_is_priced_sum_witness :
  lookup_prices (price_lookup_of sample_catalog) coreless = Some (Prices 0.0066 3.79)
  /\ aggregate_stage (price_lookup_of sample_catalog) [coreless] = raise NoPriceableServers.
Proof.
  split; [vm_compute; reflexivity|].
  apply (proj1 (proj2 (total_vcpus_is_priced_sum (price_lookup_of sample_catalog) [coreless]))).
  vm_compute. reflexivity.
Defined.

Lemma total_vcpus_order_independent_witness :
  total_vcpus (aggregate (price_lookup_of sample_catalog) [db1; web1; legacy])
  = total_vcpus (aggregate (price_lookup_of sample_catalog) [web1; legacy; db1]).
Proof.
  apply (total_vcpus_order_independent (price_lookup_of sample_catalog)
           [db1; web1; legacy] [web1; legacy; db1]).
  apply (Permutation_cons_append [web1; legacy] db1).
Defined.

Lemma priced_vcpus_positive_cores price_lookup servers :
  (forall server, In server servers -> 0 < vcpus server) ->
  0 <= priced_vcpus price_lookup servers
  /\ (priced_vcpus price_lookup servers = 0 <-> Forall (unresolvable price_lookup) servers).
Proof.
  induction servers as [|server servers IH]; intros Hpos.
  - split; [reflexivity|]. split; [constructor | reflexivity].
  - destruct IH as [Hge Hiff]; [intros s Hs; apply Hpos; right; exact Hs|].
    pose proof (Hpos server (or_introl eq_refl)) as Hs.
    rewrite priced_vcpus_cons. destruct (lookup_prices price_lookup server) eqn:Hl.
    + split; [lia|]. split; [lia|].
      intros Hall. apply Forall_cons in Hall as [Hu _]. unfold unresolvable in Hu.
      congruence.
    + split; [exact Hge|]. rewrite Hiff. split.
      * intros Hall. constructor; [exact Hl | exact Hall].
      * intros Hall. apply Forall_cons in Hall as [_ Hall]. exact Hall.
Qed.

(** X16. When every server reports a positive number of cores, section 2
    ends with the "could not resolve pricing" exit only if no server at all
    has a price entry; as soon as one has, the totals are handed on with a
    positive [total_vcpus]. *)
Theorem positive_cores_reject_iff_all_skipped price_lookup servers :
  (forall server, In server servers -> 0 < vcpus server) ->
  (aggregate_stage price_lookup servers = raise NoPriceableServers
   <-> Forall (unresolvable price_lookup) servers)
  /\ (~ Forall (unresolvable price_lookup) servers ->
      aggregate_stage price_lookup servers = ret (aggregate price_lookup servers)
      /\ 0 < total_vcpus (aggregate price_lookup servers)).
Proof.
  intros Hpos.
  destruct (priced_vcpus_positive_cores price_lookup servers Hpos) as [Hge Hiff].
  destruct (total_vcpus_is_priced_sum_aux price_lookup servers) as [Hrej Hok].
  split; [rewrite Hrej; exact Hiff|].
  intros Hsome. assert (Hnz : priced_vcpus price_lookup servers <> 0)
    by (intros Hz; apply Hsome, Hiff, Hz).
  split; [apply Hok, Hnz|]. rewrite total_vcpus_aggregate. lia.
Qed.

Lemma positive_cores_reject_iff_all_skipped_witness :
  aggregate_stage (price_lookup_of sample_catalog) [legacy; web1]
  = ret (aggregate (price_lookup_of sample_catalog) [legacy; web1])
  /\ 0 < total_vcpus (aggregate (price_lookup_of sample_catalog) [legacy; web1]).
Proof.
  apply (positive_cores_reject_iff_all_skipped (price_lookup_of sample_catalog)
           [legacy; web1]).
  - intros server [<-|[<-|[]]]; reflexivity.
  - intros Hall. apply Forall_cons in Hall as [_ Hall].
    apply Forall_cons in Hall as [Hweb _]. vm_compute in Hweb. discriminate.
Defined.

(** ** Finite rates *)

Lemma SFcompare_refl_finite s m e :
  SFcompare (S754_finite s m e) (S754_finite s m e) = Some Eq.
Proof.
  cbn. rewrite Z.compare_refl, Pos.compare_cont_refl. destruct s; reflexivity.
Qed.

(** [PrimFloat.is_finite] read on the decoded form. *)
Lemma is_finite_spec f : PrimFloat.is_finite f = negb (sf_nonfinite (Prim2SF f)).
Proof.
  unfold PrimFloat.is_finite, PrimFloat.is_nan, PrimFloat.is_infinity.
  rewrite !FloatAxioms.eqb_spec, abs_spec.
  change (Prim2SF infinity) with (S754_infinity false).
  destruct (Prim2SF f) as [s|s| |s m e]; unfold SFeqb.
  - reflexivity.
  - destruct s; reflexivity.
  - reflexivity.
  - rewrite SFcompare_refl_finite. reflexivity.
Qed.

Lemma SF64mul_nonfinite x y :
  sf_nonfinite x = true \/ sf_nonfinite y = true -> sf_nonfinite (SF64mul x y) = true.
Proof. intros [H|H]; destruct x, y; try discriminate; reflexivity. Qed.

Lemma SF64add_nonfinite x y :
  sf_nonfinite x = true \/ sf_nonfinite y = true -> sf_nonfinite (SF64add x y) = true.
Proof.
  intros [H|H]; destruct x as [[]|[]| |], y as [[]|[]| |]; try discriminate; reflexivity.
Qed.

Lemma SF64sub_nonfinite x y :
  sf_nonfinite x = true \/ sf_nonfinite y = true -> sf_nonfinite (SF64sub x y) = true.
Proof.
  intros [H|H]; destruct x as [[]|[]| |], y as [[]|[]| |]; try discriminate; reflexivity.
Qed.

Lemma SFltb_abs_nonfinite x y : sf_nonfinite x = true -> SFltb (SFabs x) y = false.
Proof.
  intros H. destruct x as [|[]| |]; try discriminate; destruct y as [[]|[]| |[]];
    reflexivity.
Qed.

(** The assertion of line 145 fails as soon as one of the five numbers it
    combines is NaN or infinite. *)
Lemma reconstructs_nonfinite t c per_cpu per_memory :
  sf_nonfinite (Prim2SF per_cpu) = true
  \/ sf_nonfinite (Prim2SF per_memory) = true
  \/ sf_nonfinite (Prim2SF (total_ram_gb t)) = true
  \/ sf_nonfinite (Prim2SF (total_hourly t)) = true ->
  reconstructs t c per_cpu per_memory = false.
Proof.
  intros H. unfold reconstructs.
  rewrite ltb_spec, abs_spec, sub_spec, add_spec, !mul_spec.
  apply SFltb_abs_nonfinite, SF64sub_nonfinite.
  destruct H as [H|[H|[H|H]]]; [left | left | left | right; exact H];
    apply SF64add_nonfinite; [left | right | right]; apply SF64mul_nonfinite; auto.
Qed.

Lemma reconstructs_finite t c per_cpu per_memory :
  reconstructs t c per_cpu per_memory = true ->
  PrimFloat.is_finite per_cpu = true
  /\ PrimFloat.is_finite per_memory = true
  /\ PrimFloat.is_finite (total_ram_gb t) = true
  /\ PrimFloat.is_finite (total_hourly t) = true.
Proof.
  intros Hchk. rewrite !is_finite_spec.
  pose proof (reconstructs_nonfinite t c per_cpu per_memory) as Hbad.
  destruct (sf_nonfinite (Prim2SF per_cpu)); [rewrite Hbad in Hchk by auto; discriminate|].
  destruct (sf_nonfinite (Prim2SF per_memory));
    [rewrite Hbad in Hchk by auto; discriminate|].
  destruct (sf_nonfinite (Prim2SF (total_ram_gb t)));
    [rewrite Hbad in Hchk by auto; discriminate|].
  destruct (sf_nonfinite (Prim2SF (total_hourly t)));
    [rewrite Hbad in Hchk by auto; discriminate|].
  auto.
Qed.

(** The four ways section 3 can end. *)
Lemma derive_stage_outcomes t :
  (exists c per_cpu per_memory,
     PyFloat.of_int (total_vcpus t) = Ok c
     /\ derive_rates t = Ok (per_cpu, per_memory)
     /\ reconstructs t c per_cpu per_memory = true
     /\ derive_stage t = ret (per_cpu, per_memory))
  \/ derive_stage t = raise AssertionError
  \/ derive_stage t = raise ZeroDivisionError
  \/ derive_stage t = raise OverflowError.
Proof.
  unfold derive_stage, derive_rates, PyFloat.truediv, PyFloat.of_int.
  destruct (binary_normalize prec emax (total_vcpus t) 0 false) as [s|s| |s m e];
    try (right; right; right; reflexivity).
  all: match goal with
       | |- context [PyFloat.is_zero ?d] => destruct (PyFloat.is_zero d)
       end; [right; right; left; reflexivity|].
  all: rewrite !bind_lift_ok;
    match goal with
    | |- context [reconstructs ?a ?b ?c ?d] => destruct (reconstructs a b c d) eqn:Hchk
    end; [left; do 3 eexists; repeat split; exact Hchk | right; left; reflexivity].
Qed.

(** X17. Rates that leave section 3 are finite numbers: neither
    [per_cpu] nor [per_memory] is NaN or infinite, since the assertion of
    line 145 cannot pass on such values. *)
Theorem derived_rates_are_finite t per_cpu per_memory :
  derive_stage t = ret (per_cpu, per_memory) ->
  PrimFloat.is_finite per_cpu = true /\ PrimFloat.is_finite per_memory = true.
Proof.
  intros Hstage.
  destruct (derive_stage_outcomes t)
    as [(c & pc & pm & _ & _ & Hchk & Hret)|[H|[H|H]]];
    try (rewrite H in Hstage; discriminate).
  rewrite Hret in Hstage. injection Hstage as <- <-.
  destruct (reconstructs_finite _ _ _ _ Hchk) as (Hpc & Hpm & _). auto.
Qed.

Lemma derived_rates_are_finite_witness :
  PrimFloat.is_finite 0.042967044958533394 = true
  /\ PrimFloat.is_finite 0.0048832387603666523 = true.
Proof.
  apply (derived_rates_are_finite scenario_totals). vm_compute. reflexivity.
Defined.

(** X18. Totals whose [total_hourly] or [total_ram_gb] is NaN or infinite
    (a catalog price or a memory size that parsed to such a value) never
    yield rates: section 3 ends with [AssertionError], [ZeroDivisionError]
    or [OverflowError]. *)
Theorem nonfinite_totals_rejected t :
  PrimFloat.is_finite (total_hourly t) = false
  \/ PrimFloat.is_finite (total_ram_gb t) = false ->
  derive_stage t = raise AssertionError
  \/ derive_stage t = raise ZeroDivisionError
  \/ derive_stage t = raise OverflowError.
Proof.
  intros Hbad.
  destruct (derive_stage_outcomes t) as [(c & pc & pm & _ & _ & Hchk & _)|H]; [|exact H].
  destruct (reconstructs_finite _ _ _ _ Hchk) as (_ & _ & HM & HH).
  destruct Hbad as [Hbad|Hbad]; congruence.
Qed.

Lemma nonfinite_totals_rejected_witness :
  derive_stage poisoned_totals = raise AssertionError.
Proof.
  destruct (nonfinite_totals_rejected poisoned_totals) as [H|[H|H]];
    [left; vm_compute; reflexivity | exact H | vm_compute in H; discriminate H
    | vm_compute in H; discriminate H].
Defined.

(** ** Signs *)

Lemma binary_round_aux_nonneg m e l :
  sf_nonneg (binary_round_aux prec emax false m e l) = true.
Proof.
  unfold binary_round_aux.
  destruct (shr_fexp prec emax m e l) as [mrs' e'].
  destruct (shr_fexp prec emax _ e' loc_Exact) as [mrs'' e''].
  destruct (shr_m mrs''); [reflexivity | | reflexivity].
  destruct (Z.leb e'' (emax - prec)); reflexivity.
Qed.

Lemma binary_round_nonneg m e : sf_nonneg (binary_round prec emax false m e) = true.
Proof.
  unfold binary_round. destruct (shl_align m e _) as [mz ez].
  apply binary_round_aux_nonneg.
Qed.

Lemma binary_normalize_nonneg n e :
  0 <= n -> sf_nonneg (binary_normalize prec emax n e false) = true.
Proof.
  intros Hn. destruct n as [|p|p]; [reflexivity | apply binary_round_nonneg | lia].
Qed.

Lemma SF64mul_nonneg x y :
  sf_nonneg x = true -> sf_nonneg y = true -> sf_nonneg (SF64mul x y) = true.
Proof.
  intros Hx Hy.
  destruct x as [sx|[]| |[] mx ex], y as [sy|[]| |[] my ey];
    try discriminate; try reflexivity; try (destruct sx; reflexivity);
    try (destruct sy; reflexivity).
  apply binary_round_aux_nonneg.
Qed.

Lemma SF64add_nonneg x y :
  sf_nonneg x = true -> sf_nonneg y = true -> sf_nonneg (SF64add x y) = true.
Proof.
  intros Hx Hy.
  destruct x as [[]|[]| |[] mx ex], y as [[]|[]| |[] my ey];
    try discriminate; try reflexivity.
  unfold SF64add, SFadd. cbn [cond_Zopp Z.add]. apply binary_round_nonneg.
Qed.

Lemma SF64div_nonneg x y :
  sf_nonneg x = true -> sf_nonneg y = true -> sf_nonzero y = true ->
  sf_nonneg (SF64div x y) = true.
Proof.
  intros Hx Hy Hnz.
  destruct x as [sx|[]| |[] mx ex], y as [sy|[]| |[] my ey];
    try discriminate; try reflexivity; try (destruct sx; reflexivity).
  unfold SF64div, SFdiv.
  destruct (SFdiv_core_binary prec emax (Z.pos mx) ex (Z.pos my) ey) as [[mz ez] lz].
  apply binary_round_aux_nonneg.
Qed.

Lemma SFldexp_nonneg x e :
  sf_nonneg x = true -> sf_nonneg (SFldexp prec emax x e) = true.
Proof.
  intros Hx. destruct x as [s|s| |[] m ex]; try discriminate; try exact Hx.
  apply binary_round_nonneg.
Qed.

Lemma of_uint63_nonneg n : sf_nonneg (Prim2SF (of_uint63 n)) = true.
Proof.
  rewrite of_uint63_spec. apply binary_normalize_nonneg.
  apply (Uint63.to_Z_bounded n).
Qed.

Lemma SF2Prim_nonneg sf : sf_nonneg sf = true -> sf_nonneg (Prim2SF (SF2Prim sf)) = true.
Proof.
  intros Hsf. destruct sf as [[]|[]| |[] m e]; try discriminate; try reflexivity.
  unfold SF2Prim, Z.ldexp. rewrite ldshiftexp_spec.
  apply SFldexp_nonneg, of_uint63_nonneg.
Qed.

Lemma of_int_nonneg n c :
  0 <= n -> PyFloat.of_int n = Ok c -> sf_nonneg (Prim2SF c) = true.
Proof.
  intros Hn. unfold PyFloat.of_int.
  pose proof (binary_normalize_nonneg n 0 Hn) as Hsf.
  destruct (binary_normalize prec emax n 0 false) as [s|s| |s m e] eqn:Hb;
    try discriminate; intros [= <-]; exact (SF2Prim_nonneg _ Hsf).
Qed.

Lemma is_zero_spec f : PyFloat.is_zero f = negb (sf_nonzero (Prim2SF f)).
Proof.
  unfold PyFloat.is_zero. rewrite FloatAxioms.eqb_spec.
  change (Prim2SF 0) with (S754_zero false).
  destruct (Prim2SF f) as [s|[]| |[] m e]; reflexivity.
Qed.

Lemma leb_zero_nonneg f : (0 <=? f)%float = true -> sf_nonneg (Prim2SF f) = true.
Proof.
  rewrite leb_spec. change (Prim2SF 0) with (S754_zero false).
  destruct (Prim2SF f) as [s|[]| |[] m e]; try reflexivity; discriminate.
Qed.

Lemma nonneg_finite_leb_zero f :
  sf_nonneg (Prim2SF f) = true -> PrimFloat.is_finite f = true -> (0 <=? f)%float = true.
Proof.
  rewrite is_finite_spec, leb_spec. change (Prim2SF 0) with (S754_zero false).
  destruct (Prim2SF f) as [s|[]| |[] m e]; try reflexivity; discriminate.
Qed.

Lemma CPU_MEMORY_RATIO_nonneg : sf_nonneg (Prim2SF CPU_MEMORY_RATIO) = true.
Proof. vm_compute. reflexivity. Qed.

(** The rates of lines 137-138 carry no minus sign when the totals carry
    none. *)
Lemma derive_rates_nonneg t per_cpu per_memory :
  0 <= total_vcpus t ->
  sf_nonneg (Prim2SF (total_hourly t)) = true ->
  sf_nonneg (Prim2SF (total_ram_gb t)) = true ->
  derive_rates t = Ok (per_cpu, per_memory) ->
  sf_nonneg (Prim2SF per_cpu) = true /\ sf_nonneg (Prim2SF per_memory) = true.
Proof.
  intros HC HH HM Hr.
  destruct (derive_rates_inv _ _ Hr) as (c & Hc & Hz & Hcf).
  unfold closed_form in Hcf. injection Hcf as -> ->.
  pose proof (of_int_nonneg _ _ HC Hc) as Hcn.
  rewrite is_zero_spec in Hz. apply negb_false_iff in Hz.
  assert (Hden : sf_nonneg (Prim2SF (CPU_MEMORY_RATIO * c + total_ram_gb t)) = true).
  { rewrite add_spec, mul_spec.
    apply SF64add_nonneg; [apply SF64mul_nonneg|]; auto using CPU_MEMORY_RATIO_nonneg. }
  assert (Hpm : sf_nonneg (Prim2SF (total_hourly t / (CPU_MEMORY_RATIO * c + total_ram_gb t)))
                = true)
    by (rewrite div_spec; apply SF64div_nonneg; assumption).
  split; [|exact Hpm].
  rewrite mul_spec. apply SF64mul_nonneg; auto using CPU_MEMORY_RATIO_nonneg.
Qed.

Lemma derive_stage_ok_inv t per_cpu per_memory :
  derive_stage t = ret (per_cpu, per_memory) ->
  exists c,
    PyFloat.of_int (total_vcpus t) = Ok c
    /\ derive_rates t = Ok (per_cpu, per_memory)
    /\ reconstructs t c per_cpu per_memory = true.
Proof.
  intros Hstage.
  destruct (derive_stage_outcomes t)
    as [(c & pc & pm & Hc & Hr & Hchk & Hret)|[H|[H|H]]];
    try (rewrite H in Hstage; discriminate).
  rewrite Hret in Hstage. injection Hstage as <- <-. eauto.
Qed.

(** X19. No run ever posts a NaN or an infinity: every pricing update
    request in a trace carries a body [{"per_cpu_core": pc,
    "per_memory_gb": pm}] with both numbers finite. *)
Theorem posted_rates_are_finite environ w ev :
  In ev (run environ w).1 ->
  is_update_call ev = true ->
  exists project per_cpu per_memory,
    ev = CorootCall "POST" (ApiCustomCloudPricing project)
           (Some (pricing_body per_cpu per_memory))
    /\ PrimFloat.is_finite per_cpu = true
    /\ PrimFloat.is_finite per_memory = true.
Proof.
  intros Hin Hev. pose proof (run_inv environ w) as Hrun.
  pose proof (discover_trace_no_update w (env_get environ "COROOT_PROJECT" "")) as Hno.
  destruct (run environ w) as [trace o]. cbn [fst snd] in *.
  assert (Hfin : forall t rates td project,
            derive_stage t = ([], Ok rates) ->
            forallb (fun ev => negb (is_update_call ev)) td = true ->
            In ev ([pricing_get; servers_get; login_call environ] ++ td
                   ++ [update_call project rates]) ->
            exists project per_cpu per_memory,
              ev = CorootCall "POST" (ApiCustomCloudPricing project)
                     (Some (pricing_body per_cpu per_memory))
              /\ PrimFloat.is_finite per_cpu = true
              /\ PrimFloat.is_finite per_memory = true).
  { intros t [pc pm] td project Hd Htd Hin'.
    apply in_app_or in Hin' as [Hin'|Hin'];
      [cbn in Hin'; exfalso; intuition (subst; discriminate)|].
    apply in_app_or in Hin' as [Hin'|Hin'].
    - exfalso. rewrite forallb_forall in Htd. specialize (Htd ev Hin').
      rewrite Hev in Htd. discriminate.
    - destruct Hin' as [<-|[]].
      destruct (derive_stage_ok_inv _ _ _ Hd) as (c & _ & _ & Hchk).
      destruct (reconstructs_finite _ _ _ _ Hchk) as (Hpc & Hpm & _).
      exists project, pc, pm. auto. }
  inversion Hrun as [e Hc|t1 e Hc Hf Ht1|pl sv e Hc Hf Ha|pl sv t e Hc Hf Ha Hd
                    |pl sv t rates e Hc Hf Ha Hd Hl
                    |pl sv t rates td e Hc Hf Ha Hd Hl Hdisc
                    |pl sv t rates td project e Hc Hf Ha Hd Hl Hdisc Hu
                    |pl sv t rates td project Hc Hf Ha Hd Hl Hdisc Hu];
    subst; try rewrite Hdisc in Hno; cbn [fst] in Hno.
  - destruct Hin.
  - exfalso. destruct Ht1 as [-> | ->]; cbn in Hin; intuition (subst; discriminate).
  - exfalso. cbn in Hin. intuition (subst; discriminate).
  - exfalso. cbn in Hin. intuition (subst; discriminate).
  - exfalso. cbn in Hin. intuition (subst; discriminate).
  - exfalso. apply in_app_or in Hin as [Hin|Hin];
      [cbn in Hin; intuition (subst; discriminate)|].
    rewrite forallb_forall in Hno. specialize (Hno ev Hin). rewrite Hev in Hno. discriminate.
  - eapply Hfin; eassumption.
  - eapply Hfin; eassumption.
Qed.

Lemma posted_rates_are_finite_witness :
  exists project per_cpu per_memory,
    update_call (JStr "prod") (0.0042912571132953962%float, 0.0004877047766856355%float)
    = CorootCall "POST" (ApiCustomCloudPricing project)
        (Some (pricing_body per_cpu per_memory))
    /\ PrimFloat.is_finite per_cpu = true
    /\ PrimFloat.is_finite per_memory = true.
Proof.
  apply (posted_rates_are_finite sample_environ happy_world).
  - vm_compute. do 4 right. left. reflexivity.
  - reflexivity.
Defined.

Lemma CPU_MEMORY_RATIO_class :
  sf_nonfinite (Prim2SF CPU_MEMORY_RATIO) = false
  /\ sf_nonzero (Prim2SF CPU_MEMORY_RATIO) = true.
Proof. split; vm_compute; reflexivity. Qed.

(** X20. A fleet whose hourly total is zero yields zero rates: whenever
    [total_hourly] is 0.0 and section 3 produces rates, both [per_cpu] and
    [per_memory] are zero. *)
Theorem free_fleet_gives_zero_rates t per_cpu per_memory :
  PyFloat.is_zero (total_hourly t) = true ->
  derive_stage t = ret (per_cpu, per_memory) ->
  PyFloat.is_zero per_cpu = true /\ PyFloat.is_zero per_memory = true.
Proof.
  intros HH Hstage.
  destruct (derive_stage_ok_inv _ _ _ Hstage) as (c & _ & Hr & Hchk).
  destruct (reconstructs_finite _ _ _ _ Hchk) as (_ & Hpm & _).
  destruct (derive_rates_inv _ _ Hr) as (c' & _ & Hz & Hcf).
  unfold closed_form in Hcf. injection Hcf as Hpc Hpmeq.
  rewrite is_zero_spec in HH, Hz. apply negb_true_iff in HH. apply negb_false_iff in Hz.
  rewrite is_finite_spec in Hpm. apply negb_true_iff in Hpm.
  assert (Hpm0 : sf_nonzero (Prim2SF per_memory) = false).
  { rewrite Hpmeq in Hpm |- *. rewrite div_spec in Hpm |- *.
    destruct (Prim2SF (total_hourly t)) as [sh| | |]; try discriminate.
    destruct (Prim2SF (CPU_MEMORY_RATIO * c' + total_ram_gb t)) as [sd|sd| |sd md ed];
      try discriminate; reflexivity. }
  split; rewrite is_zero_spec; apply negb_true_iff; [|exact Hpm0].
  rewrite <- Hpmeq in Hpc. rewrite Hpc, mul_spec.
  destruct CPU_MEMORY_RATIO_class as [Hfin Hnz].
  destruct (Prim2SF CPU_MEMORY_RATIO) as [sr|sr| |sr mr er]; try discriminate.
  destruct (Prim2SF per_memory) as [sm| | |]; try discriminate. reflexivity.
Qed.

Lemma free_fleet_gives_zero_rates_witness :
  PyFloat.is_zero 0 = true /\ PyFloat.is_zero 0 = true.
Proof.
  apply (free_fleet_gives_zero_rates free_totals 0 0);
    [reflexivity | vm_compute; reflexivity].
Defined.

(** X21. Rates carry no minus sign when the totals carry none: for totals
    with [total_hourly >= 0], [total_ram_gb >= 0] and [total_vcpus >= 0],
    rates that leave section 3 satisfy [per_cpu >= 0] and
    [per_memory >= 0]. *)
Theorem nonnegative_totals_give_nonnegative_rates t per_cpu per_memory :
  (0 <=? total_hourly t)%float = true ->
  (0 <=? total_ram_gb t)%float = true ->
  0 <= total_vcpus t ->
  derive_stage t = ret (per_cpu, per_memory) ->
  (0 <=? per_cpu)%float = true /\ (0 <=? per_memory)%float = true.
Proof.
  intros HH HM HC Hstage.
  destruct (derive_stage_ok_inv _ _ _ Hstage) as (c & _ & Hr & Hchk).
  destruct (reconstructs_finite _ _ _ _ Hchk) as (Hpcf & Hpmf & _).
  destruct (derive_rates_nonneg t per_cpu per_memory HC
              (leb_zero_nonneg _ HH) (leb_zero_nonneg _ HM) Hr) as [Hpc Hpm].
  split; apply nonneg_finite_leb_zero; assumption.
Qed.

Lemma nonnegative_totals_give_nonnegative_rates_witness :
  (0 <=? 0.042967044958533394)%float = true
  /\ (0 <=? 0.0048832387603666523)%float = true.
Proof.
  apply (nonnegative_totals_give_nonnegative_rates scenario_totals);
    [reflexivity | reflexivity | discriminate | vm_compute; reflexivity].
Defined.

(** The loop keeps the accumulators free of minus signs when the prices,
    memory sizes and core counts it adds carry none. *)
Lemma foldl_loop_body_nonneg price_lookup servers : forall acc,
  (forall server p, In server servers -> lookup_prices price_lookup server = Some p ->
                    sf_nonneg (Prim2SF (hourly p)) = true) ->
  (forall server, In server servers ->
                  0 <= vcpus server /\ sf_nonneg (Prim2SF (ram_gb server)) = true) ->
  0 <= total_vcpus acc ->
  sf_nonneg (Prim2SF (total_hourly acc)) = true ->
  sf_nonneg (Prim2SF (total_ram_gb acc)) = true ->
  let t := foldl (loop_body price_lookup) acc servers in
  0 <= total_vcpus t
  /\ sf_nonneg (Prim2SF (total_hourly t)) = true
  /\ sf_nonneg (Prim2SF (total_ram_gb t)) = true.
Proof.
  induction servers as [|server servers IH]; intros acc Hprices Hservers HC HH HM.
  - cbn. auto.
  - cbn [foldl]. apply IH.
    + intros s p Hs. apply Hprices. right. exact Hs.
    + intros s Hs. apply Hservers. right. exact Hs.
    + unfold loop_body. destruct (lookup_prices price_lookup server); [|exact HC].
      cbn. destruct (Hservers server (or_introl eq_refl)). lia.
    + unfold loop_body. destruct (lookup_prices price_lookup server) as [p|] eqn:Hl;
        [|exact HH].
      cbn. rewrite add_spec. apply SF64add_nonneg; [exact HH|].
      apply (Hprices server p (or_introl eq_refl) Hl).
    + unfold loop_body. destruct (lookup_prices price_lookup server); [|exact HM].
      cbn. rewrite add_spec. apply SF64add_nonneg; [exact HM|].
      apply (Hservers server (or_introl eq_refl)).
Qed.

(** X22. With a pricing list whose hourly prices are all [>= 0] and servers
    whose core counts and memory sizes are all [>= 0], no run posts a
    negative rate: every pricing update request in a trace carries
    [per_cpu_core >= 0] and [per_memory_gb >= 0]. *)
Theorem nonnegative_prices_post_nonnegative_rates environ w server_types servers ev :
  hetzner_pricing w = HzBody server_types ->
  hetzner_servers w = HzBody servers ->
  (forall st loc p, In st server_types -> In (loc, p) (st_prices st) ->
                    (0 <=? hourly p)%float = true) ->
  (forall server, In server servers ->
                  0 <= vcpus server /\ (0 <=? ram_gb server)%float = true) ->
  In ev (run environ w).1 ->
  is_update_call ev = true ->
  exists project per_cpu per_memory,
    ev = CorootCall "POST" (ApiCustomCloudPricing project)
           (Some (pricing_body per_cpu per_memory))
    /\ (0 <=? per_cpu)%float = true
    /\ (0 <=? per_memory)%float = true.
Proof.
  intros Hp Hs Hprices Hservers Hin Hev.
  assert (Hagg : let t := aggregate (price_lookup_of server_types) servers in
                 0 <= total_vcpus t
                 /\ sf_nonneg (Prim2SF (total_hourly t)) = true
                 /\ sf_nonneg (Prim2SF (total_ram_gb t)) = true).
  { apply foldl_loop_body_nonneg; try reflexivity.
    - intros server p _ Hl. destruct (lookup_prices_sound _ _ _ Hl) as (st & Hst & _ & Hpr).
      apply leb_zero_nonneg, (Hprices st (location server) p Hst Hpr).
    - intros server Hsv. destruct (Hservers server Hsv) as [Hc Hm].
      split; [exact Hc | apply leb_zero_nonneg, Hm]. }
  cbn zeta in Hagg. destruct Hagg as (HC & HH & HM).
  pose proof (run_inv environ w) as Hrun.
  pose proof (discover_trace_no_update w (env_get environ "COROOT_PROJECT" "")) as Hno.
  destruct (run environ w) as [trace o]. cbn [fst snd] in *.
  assert (Hpost : forall pl sv t rates td project,
            fetch w = ([pricing_get; servers_get], Ok (pl, sv)) ->
            aggregate_stage pl sv = ([], Ok t) ->
            derive_stage t = ([], Ok rates) ->
            forallb (fun ev => negb (is_update_call ev)) td = true ->
            In ev ([pricing_get; servers_get; login_call environ] ++ td
                   ++ [update_call project rates]) ->
            exists project per_cpu per_memory,
              ev = CorootCall "POST" (ApiCustomCloudPricing project)
                     (Some (pricing_body per_cpu per_memory))
              /\ (0 <=? per_cpu)%float = true
              /\ (0 <=? per_memory)%float = true).
  { intros pl sv t [pc pm] td project Hf Ha Hd Htd Hin'.
    apply in_app_or in Hin' as [Hin'|Hin'];
      [cbn in Hin'; exfalso; intuition (subst; discriminate)|].
    apply in_app_or in Hin' as [Hin'|Hin'].
    - exfalso. rewrite forallb_forall in Htd. specialize (Htd ev Hin').
      rewrite Hev in Htd. discriminate.
    - destruct Hin' as [<-|[]].
      destruct (sections_1_to_3_inv _ _ _ _ _ Hf Ha Hd) as (sts & Hp' & Hs' & Hder).
      rewrite Hp in Hp'. rewrite Hs in Hs'. injection Hp' as <-. injection Hs' as <-.
      destruct (derive_stage_ok_inv _ _ _ Hder) as (c & _ & Hr & Hchk).
      destruct (reconstructs_finite _ _ _ _ Hchk) as (Hpcf & Hpmf & _).
      destruct (derive_rates_nonneg _ pc pm HC HH HM Hr) as [Hpc Hpm].
      exists project, pc, pm. repeat split; apply nonneg_finite_leb_zero; assumption. }
  inversion Hrun as [e Hc|t1 e Hc Hf Ht1|pl sv e Hc Hf Ha|pl sv t e Hc Hf Ha Hd
                    |pl sv t rates e Hc Hf Ha Hd Hl
                    |pl sv t rates td e Hc Hf Ha Hd Hl Hdisc
                    |pl sv t rates td project e Hc Hf Ha Hd Hl Hdisc Hu
                    |pl sv t rates td project Hc Hf Ha Hd Hl Hdisc Hu];
    subst; try rewrite Hdisc in Hno; cbn [fst] in Hno.
  - destruct Hin.
  - exfalso. destruct Ht1 as [-> | ->]; cbn in Hin; intuition (subst; discriminate).
  - exfalso. cbn in Hin. intuition (subst; discriminate).
  - exfalso. cbn in Hin. intuition (subst; discriminate).
  - exfalso. cbn in Hin. intuition (subst; discriminate).
  - exfalso. apply in_app_or in Hin as [Hin|Hin];
      [cbn in Hin; intuition (subst; discriminate)|].
    rewrite forallb_forall in Hno. specialize (Hno ev Hin). rewrite Hev in Hno. discriminate.
  - eapply Hpost; eassumption.
  - eapply Hpost; eassumption.
Qed.

Lemma nonnegative_prices_post_nonnegative_rates_witness :
  exists project per_cpu per_memory,
    update_call (JStr "prod") (0.0042912571132953962%float, 0.0004877047766856355%float)
    = CorootCall "POST" (ApiCustomCloudPricing project)
        (Some (pricing_body per_cpu per_memory))
    /\ (0 <=? per_cpu)%float = true
    /\ (0 <=? per_memory)%float = true.
Proof.
  apply (nonnegative_prices_post_nonnegative_rates sample_environ happy_world
           sample_catalog [web1; legacy; db1]).
  - reflexivity.
  - reflexivity.
  - intros st loc p [<-|[<-|[]]] Hin; cbn in Hin;
      repeat (destruct Hin as [[= <- <-]|Hin]; [reflexivity|]); destruct Hin.
  - intros server [<-|[<-|[<-|[]]]]; split; first [discriminate | reflexivity].
  - vm_compute. do 4 right. left. reflexivity.
  - reflexivity.
Defined.

(** ** Completion *)

Lemma coroot_request_accepted w method path body :
  accepted (coroot w method path body) = true ->
  exists j, coroot_request w method path body = ([CorootCall method path body], Ok j).
Proof.
  unfold coroot_request. destruct (coroot w method path body); try discriminate;
    intros _; eexists; reflexivity.
Qed.

(** X23. A run completes whenever nothing on its way fails: with the
    configuration complete, a non-empty server list whose priced servers'
    cores do not sum to zero, rates that pass the assertion, a login and an
    update answered with a success status and a blank or JSON body (whose
    content is ignored), and a discovery that resolves, the run sends the
    two provider requests, the login, the discovery requests and the one
    update, and ends successfully. *)
Theorem run_completes environ w server_types servers rates td project :
  forallb (env_set environ) REQUIRED = true ->
  hetzner_pricing w = HzBody server_types ->
  hetzner_servers w = HzBody servers ->
  servers <> [] ->
  priced_vcpus (price_lookup_of server_types) servers <> 0 ->
  derive_stage (aggregate (price_lookup_of server_types) servers) = ret rates ->
  accepted (coroot w "POST" ApiLogin
              (Some (login_body (env_get environ "COROOT_EMAIL" "")
                                (env_get environ "COROOT_PASSWORD" "")))) = true ->
  discover w (env_get environ "COROOT_PROJECT" "") = (td, Ok project) ->
  accepted (coroot w "POST" (ApiCustomCloudPricing project)
              (Some (pricing_body rates.1 rates.2))) = true ->
  run environ w
  = ([pricing_get; servers_get; login_call environ] ++ td ++ [update_call project rates],
     Done).
Proof.
  intros Henv Hp Hs Hne Hsum Hder Hlogin Hdisc Hupd.
  destruct servers as [|server servers]; [contradiction|].
  unfold run. rewrite (check_required_ok _ _ Henv). cbn [section ret].
  rewrite (fetch_nonempty _ _ _ _ Hp Hs). cbn [section].
  destruct (total_vcpus_is_priced_sum_aux (price_lookup_of server_types) (server :: servers))
    as [_ Hok].
  rewrite (proj2 Hok Hsum). cbn [section ret]. rewrite Hder. cbn [section ret].
  destruct (coroot_request_accepted _ _ _ _ Hlogin) as [j Hl].
  destruct (coroot_request_accepted _ _ _ _ Hupd) as [j' Hu].
  unfold login. rewrite Hl. cbn [section bind ret app]. rewrite Hdisc. cbn [section].
  unfold update_pricing. rewrite Hu. reflexivity.
Qed.

Lemma run_completes_witness :
  run sample_environ happy_world
  = ([pricing_get; servers_get; login_call sample_environ] ++ [projects_call]
     ++ [update_call (JStr "prod")
           (0.0042912571132953962%float, 0.0004877047766856355%float)],
     Done).
Proof.
  apply (run_completes sample_environ happy_world sample_catalog [web1; legacy; db1]);
    try reflexivity; try discriminate; vm_compute; first [reflexivity | discriminate].
Defined.
